(** * A shallow embedding of [server.py], the Riot API tool server

    The five tools of [server.py] are embedded as functions over a model of
    the Python values they handle.  A call of a Python function either
    returns a value or raises an exception: this is the [outcome] type, an
    error monad.  The network is an oracle [net] from the requested URL to
    what [client.get] does there, and the only builtin left abstract is the
    [repr] of a string ([repr_str]), used when a list or a dict is printed
    inside an f-string.

    JSON numbers are the integers: floating point numerals are outside the
    model. *)

From Stdlib Require Import ZArith String Ascii List Lia DecimalString.
From stdpp Require Import gmap strings list.

Open Scope string_scope.
Open Scope Z_scope.

Set Warnings "-register-all".

(** ** Python values *)

(** What [response.json()] produces.  A dict keeps its items in order. *)
Inductive json :=
| JNull
| JBool (b : bool)
| JInt (z : Z)
| JStr (s : string)
| JList (l : list json)
| JDict (d : list (string * json)).

(** The exceptions that the modelled code can raise. *)
Inductive exn :=
| KeyError (key : json)
| TypeError
| AttributeError
| JSONDecodeError
| HTTPStatusError (status : Z).

Inductive outcome (A : Type) :=
| Returned (a : A)
| Raised (e : exn).
Arguments Returned {A} a.
Arguments Raised {A} e.

Definition bind {A B} (m : outcome A) (k : A -> outcome B) : outcome B :=
  match m with
  | Returned a => k a
  | Raised e => Raised e
  end.

(** stdpp's monad notation: [x ← m; k] is [bind m (fun x => k)]. *)
Global Instance outcome_ret : MRet outcome := fun A a => Returned a.
Global Instance outcome_bind : MBind outcome := fun A B k m => bind m k.

(** Hashable values as dict keys: [True == 1] and [False == 0] are the same
    key as the integers; lists and dicts are unhashable. *)
Inductive pykey :=
| KInt (z : Z)
| KStr (s : string)
| KNone.

Global Instance pykey_eq_dec : EqDecision pykey.
Proof. solve_decision. Defined.

Global Instance pykey_countable : Countable pykey.
Proof.
  refine (inj_countable'
    (fun k => match k with
              | KInt z => inl z
              | KStr s => inr (inl s)
              | KNone => inr (inr tt)
              end)
    (fun x => match x with
              | inl z => KInt z
              | inr (inl s) => KStr s
              | inr (inr _) => KNone
              end) _).
  intros k. destruct k; reflexivity.
Defined.

Definition hash_key (v : json) : option pykey :=
  match v with
  | JNull => Some KNone
  | JBool b => Some (KInt (if b then 1 else 0))
  | JInt z => Some (KInt z)
  | JStr s => Some (KStr s)
  | JList _ | JDict _ => None
  end.

(** [bool(v)] *)
Definition py_truthy (v : json) : bool :=
  match v with
  | JNull => false
  | JBool b => b
  | JInt z => negb (z =? 0)
  | JStr s => negb (String.eqb s "")
  | JList l => match l with [] => false | _ => true end
  | JDict d => match d with [] => false | _ => true end
  end.

(** [a or b] *)
Definition py_or (a b : json) : json := if py_truthy a then a else b.

Fixpoint dict_lookup (d : list (string * json)) (k : string) : option json :=
  match d with
  | [] => None
  | (k', v) :: d' => if String.eqb k' k then Some v else dict_lookup d' k
  end.

(** [v.get(k, dflt)]: only a dict has the method. *)
Definition py_get (v : json) (k : string) (dflt : json) : outcome json :=
  match v with
  | JDict d => Returned (default dflt (dict_lookup d k))
  | _ => Raised AttributeError
  end.

(** [v[k]] for a string [k]. *)
Definition py_getitem (v : json) (k : string) : outcome json :=
  match v with
  | JDict d =>
      match dict_lookup d k with
      | Some x => Returned x
      | None => Raised (KeyError (JStr k))
      end
  | _ => Raised TypeError
  end.

(** [m[k]] and [m.get(k, dflt)] on a dict literal of the program. *)
Definition map_index {V} (m : gmap pykey V) (k : json) : outcome V :=
  match hash_key k with
  | None => Raised TypeError
  | Some hk =>
      match m !! hk with
      | Some v => Returned v
      | None => Raised (KeyError k)
      end
  end.

Definition map_get {V} (m : gmap pykey V) (k : json) (dflt : V) : outcome V :=
  match hash_key k with
  | None => Raised TypeError
  | Some hk => Returned (default dflt (m !! hk))
  end.

(** [v // n] for an integer constant [n]; a bool counts as an integer. *)
Definition py_floordiv (v : json) (n : Z) : outcome Z :=
  match v with
  | JInt z => Returned (z / n)
  | JBool b => Returned ((if b then 1 else 0) / n)
  | _ => Raised TypeError
  end.

Definition chars (s : string) : list json :=
  map (fun c => JStr (String c EmptyString)) (list_ascii_of_string s).

(** [for x in v] *)
Definition py_iter (v : json) : outcome (list json) :=
  match v with
  | JList l => Returned l
  | JDict d => Returned (map (fun kv => JStr (fst kv)) d)
  | JStr s => Returned (chars s)
  | _ => Raised TypeError
  end.

(** [l[:n]] *)
Definition py_slice_to {A} (l : list A) (n : Z) : list A :=
  if 0 <=? n then firstn (Z.to_nat n) l
  else firstn (Z.to_nat (Z.of_nat (length l) + n)) l.

Definition nl : string := String "010"%char EmptyString.

(** [sep.join(l)]: every item has to be a [str]. *)
Fixpoint strs_of (l : list json) : outcome (list string) :=
  match l with
  | [] => Returned []
  | JStr s :: l' => ss ← strs_of l'; Returned (s :: ss)
  | _ :: _ => Raised TypeError
  end.

Definition py_join (sep : string) (l : list json) : outcome string :=
  ss ← strs_of l; Returned (String.concat sep ss).

(** [str(z)] *)
Definition str_int (z : Z) : string := NilZero.string_of_int (Z.to_int z).

(** [f"{z:02d}"]: the sign counts in the width. *)
Definition fmt_02d (z : Z) : string :=
  if (0 <=? z) && (z <? 10) then "0" +:+ str_int z else str_int z.

(** [s.split("\n")], the lines of an output. *)
Fixpoint lines (s : string) : list string :=
  match s with
  | EmptyString => [EmptyString]
  | String c s' =>
      if Ascii.eqb c "010"%char then EmptyString :: lines s'
      else match lines s' with
           | [] => [String c EmptyString]
           | h :: t => String c h :: t
           end
  end.

Fixpoint has_newline (s : string) : bool :=
  match s with
  | EmptyString => false
  | String c s' => Ascii.eqb c "010"%char || has_newline s'
  end.

(** ** The HTTP client *)

Record response := {
  status_code : Z;
  headers : string -> option string;   (* [response.headers.get] *)
  body : option json                   (* [None]: the body is not JSON *)
}.

(** What [client.get(url, ...)] does, as far as [riot_req] tells the cases
    apart: a response, or one of the two exceptions it catches.
    [TimeoutException] is a subclass of [RequestError] and is caught first.
    Exceptions of the call that [riot_req] does not catch (an invalid URL,
    an unset API key) are outside the model. *)
Inductive http_outcome :=
| Response (r : response)
| TimeoutException
| RequestError (detail : string).

(** httpx: [raise_for_status] raises [HTTPStatusError] unless the status is
    a success (2xx). *)
Definition raise_for_status (r : response) : outcome unit :=
  if (200 <=? status_code r) && (status_code r <? 300) then Returned tt
  else Raised (HTTPStatusError (status_code r)).

Definition response_json (r : response) : outcome json :=
  match body r with
  | Some j => Returned j
  | None => Raised JSONDecodeError
  end.

(** ** Constants *)

Definition REGIONAL_URLS : gmap string string :=
  {[ "na" := "https://americas.api.riotgames.com";
     "euw" := "https://europe.api.riotgames.com";
     "eune" := "https://europe.api.riotgames.com";
     "kr" := "https://asia.api.riotgames.com";
     "jp" := "https://asia.api.riotgames.com" ]}.

Definition PLATFORM_URLS : gmap string string :=
  {[ "na" := "https://na1.api.riotgames.com";
     "euw" := "https://euw1.api.riotgames.com";
     "eune" := "https://eun1.api.riotgames.com";
     "kr" := "https://kr.api.riotgames.com";
     "jp" := "https://jp1.api.riotgames.com" ]}.

(** [URLS[region]] *)
Definition url_index (m : gmap string string) (region : string) : outcome string :=
  match m !! region with
  | Some u => Returned u
  | None => Raised (KeyError (JStr region))
  end.

(** [{"error": True, "message": msg}] *)
Definition error_result (msg : string) : json :=
  JDict [("error", JBool true); ("message", JStr msg)].

(** A loop that appends one item per element. *)
Fixpoint for_each {A B} (f : A -> outcome B) (l : list A) : outcome (list B) :=
  match l with
  | [] => Returned []
  | a :: l' => b ← f a; bs ← for_each f l'; Returned (b :: bs)
  end.

(** An entry of [participant_map]: [{"name": ..., "champion": ...}]. *)
Record participant := { name : json; champion : json }.

Definition team_map : gmap pykey string :=
  {[ KInt 100 := "Blue Team"; KInt 200 := "Red Team" ]}.

Definition slot_map : gmap pykey string :=
  {[ KInt 1 := "Q"; KInt 2 := "W"; KInt 3 := "E"; KInt 4 := "R" ]}.

(** [etype == "..."] *)
Definition is_str (v : json) (s : string) : bool :=
  match v with
  | JStr s' => String.eqb s' s
  | _ => false
  end.

(** The outcomes of [client.get] that [riot_req] answers with an error dict:
    the four statuses it tests for, a timeout and any other request error. *)
Definition is_fetch_error (o : http_outcome) : bool :=
  match o with
  | Response r =>
      (status_code r =? 429) || (status_code r =? 404)
      || (status_code r =? 403) || (status_code r =? 401)
  | TimeoutException => true
  | RequestError _ => true
  end.

(** The event types that the summarizer has a branch for. *)
Definition event_type (event : json) : json :=
  match event with
  | JDict d => default JNull (dict_lookup d "type")
  | _ => JNull
  end.

Definition recognized (event : json) : bool :=
  is_str (event_type event) "CHAMPION_KILL"
  || is_str (event_type event) "BUILDING_KILL"
  || is_str (event_type event) "ELITE_MONSTER_KILL"
  || is_str (event_type event) "ITEM_PURCHASED"
  || is_str (event_type event) "SKILL_LEVEL_UP".

(** The key under which the loop over the participants stores a
    participant, when it stores it. *)
Definition participant_key (p : json) : option pykey :=
  match p with
  | JDict d =>
      match dict_lookup d "participantId" with
      | Some pid => hash_key pid
      | None => None
      end
  | _ => None
  end.

(** The events that the loop over a frame goes through. *)
Definition frame_events (frame : json) : list json :=
  match frame with
  | JDict d =>
      match py_iter (default (JList []) (dict_lookup d "events")) with
      | Returned events => events
      | Raised _ => []
      end
  | _ => []
  end.

(** [isinstance(v, str)] *)
Definition is_jstr (v : json) : bool :=
  match v with
  | JStr _ => true
  | _ => false
  end.

(** ** Sample data

    A printer for quoted strings, canned network oracles and a small
    timeline document, on which the statements below are instantiated. *)

Definition quote (s : string) : string := "'" +:+ s +:+ "'".

Definition no_headers : string -> option string := fun _ => None.

Definition retry_headers (v : string) : string -> option string :=
  fun h => if String.eqb h "Retry-After" then Some v else None.

Definition net_ok (j : json) : string -> http_outcome :=
  fun _ => Response {| status_code := 200; headers := no_headers; body := Some j |}.

Definition net_status (n : Z) : string -> http_outcome :=
  fun _ => Response {| status_code := n; headers := no_headers; body := None |}.

Definition net_limited (v : string) : string -> http_outcome :=
  fun _ => Response {| status_code := 429; headers := retry_headers v; body := None |}.

Definition sample_events : list json :=
  [ JDict [("type", JStr "CHAMPION_KILL"); ("killerId", JInt 1); ("victimId", JInt 2);
           ("assistingParticipantIds", JList [JInt 3; JInt 4])];
    JDict [("type", JStr "WARD_PLACED")];
    JDict [("type", JStr "BUILDING_KILL"); ("teamId", JInt 100);
           ("buildingType", JStr "TOWER_BUILDING"); ("laneType", JStr "MID_LANE")];
    JDict [("type", JStr "SKILL_LEVEL_UP"); ("skillSlot", JInt 7)];
    JDict [("type", JStr "ITEM_PURCHASED"); ("participantId", JInt 2);
           ("itemId", JInt 1055)] ].

Definition sample_frame : list (string * json) :=
  [("timestamp", JInt 125000); ("events", JList sample_events)].

Definition sample_participants : json :=
  JList [ JDict [("participantId", JInt 1); ("riotIdGameName", JStr "Ann");
                 ("championName", JStr "Ahri")];
          JDict [("participantId", JInt 2); ("summonerName", JStr "Bob")] ].

Definition sample_timeline : json :=
  JDict [("info", JDict [("frameInterval", JInt 60000);
                         ("participants", sample_participants);
                         ("frames", JList [JDict sample_frame])])].

Definition sample_table : gmap pykey participant :=
  {[ KInt 1 := {| name := JStr "Ann"; champion := JStr "Ahri" |};
     KInt 2 := {| name := JStr "Bob"; champion := JStr "Unknown" |} ]}.

Definition sample_masteries : json :=
  JList [ JDict [("championId", JInt 103); ("championLevel", JInt 7);
                 ("championPoints", JInt 120034)];
          JDict [("championId", JInt 22); ("championLevel", JInt 5);
                 ("championPoints", JInt 31000)] ].

Definition sample_match : json :=
  JDict [("info", JDict [
    ("gameMode", JStr "CLASSIC");
    ("gameDuration", JInt 1500);
    ("participants", JList [
       JDict [("riotIdGameName", JStr "Ann"); ("championName", JStr "Ahri");
              ("kills", JInt 7); ("deaths", JInt 2); ("assists", JInt 9);
              ("totalTimeSpentDead", JInt 61); ("win", JBool true);
              ("timePlayed", JInt 1500)];
       JDict [("riotIdGameName", JStr "Bob"); ("championName", JStr "Garen");
              ("kills", JInt 1); ("deaths", JInt 8); ("assists", JInt 3);
              ("totalTimeSpentDead", JInt 240); ("win", JBool false);
              ("timePlayed", JInt 1500)] ])])].

Definition sample_account : json :=
  JDict [("puuid", JStr "p-123"); ("gameName", JStr "Ann"); ("tagLine", JStr "EUW")].

(** ** The program *)

Section Server.

(** [repr] of a [str], and the network. *)
Variable repr_str : string -> string.
Variable net : string -> http_outcome.

(** [repr(v)], as used for the items of a printed list or dict. *)
Fixpoint py_repr (v : json) : string :=
  match v with
  | JNull => "None"
  | JBool b => if b then "True" else "False"
  | JInt z => str_int z
  | JStr s => repr_str s
  | JList l => "[" +:+ String.concat ", " (map py_repr l) +:+ "]"
  | JDict d =>
      "{" +:+ String.concat ", "
                (map (fun kv => repr_str (fst kv) +:+ ": " +:+ py_repr (snd kv)) d)
          +:+ "}"
  end.

(** [str(v)], what an f-string field [{v}] prints. *)
Definition py_str (v : json) : string :=
  match v with
  | JStr s => s
  | _ => py_repr v
  end.

Definition riot_req (url : string) : outcome json :=
  match net url with
  | Response r =>
      if status_code r =? 429 then
        let retry_after := default "unknown" (headers r "Retry-After") in
        Returned (error_result
                    ("Rate limit hit. Retry after " +:+ retry_after +:+ " seconds."))
      else if status_code r =? 404 then
        Returned (error_result "Resource not found")
      else if status_code r =? 403 then
        Returned (error_result "Invalid or expired API key.")
      else if status_code r =? 401 then
        Returned (error_result "Unauthorized. Check your API key.")
      else
        _ ← raise_for_status r;
        response_json r
  | TimeoutException => Returned (error_result "Request timeout")
  | RequestError e => Returned (error_result ("Network error " +:+ e))
  end.

Definition get_player_id (region name tag_line : string) : outcome json :=
  base ← url_index REGIONAL_URLS region;
  let url := base +:+ "/riot/account/v1/accounts/by-riot-id/" +:+ name
                  +:+ "/" +:+ tag_line in
  data ← riot_req url;
  if negb (py_truthy data) then
    Returned (JStr "Found no account with that name in the server")
  else
    err ← py_get data "error" JNull;
    if py_truthy err then py_getitem data "message"
    else
      g ← py_getitem data "gameName";
      t ← py_getitem data "tagLine";
      p ← py_getitem data "puuid";
      Returned (JStr ("Name:" +:+ py_str g +:+ "#" +:+ py_str t
                              +:+ " PUUID: " +:+ py_str p)).

(** [isinstance(data, dict) and data.get("error")] *)
Definition is_error_dict (data : json) : bool :=
  match data with
  | JDict d => py_truthy (default JNull (dict_lookup d "error"))
  | _ => false
  end.

(** [for x in data[:n]]: a list or a str can be sliced; slicing a dict or a
    number raises ([TypeError] before Python 3.12). *)
Definition py_slice_iter (data : json) (n : Z) : outcome (list json) :=
  match data with
  | JList l => Returned (py_slice_to l n)
  | JStr s => Returned (py_slice_to (chars s) n)
  | _ => Raised TypeError
  end.

Definition mastery_line (mastery : json) : outcome string :=
  i ← py_getitem mastery "championId";
  l ← py_getitem mastery "championLevel";
  p ← py_getitem mastery "championPoints";
  Returned ("Champion " +:+ py_str i +:+ ": Level " +:+ py_str l
                        +:+ " - " +:+ py_str p +:+ " pts").

(** A mastery record with its three fields, none of which prints over
    several lines. *)
Definition mastery_fields (mastery : json) (f : json * json * json) : Prop :=
  let '(i, l, p) := f in
  exists d,
    mastery = JDict d /\
    dict_lookup d "championId" = Some i /\
    dict_lookup d "championLevel" = Some l /\
    dict_lookup d "championPoints" = Some p /\
    has_newline (py_str i) = false /\
    has_newline (py_str l) = false /\
    has_newline (py_str p) = false.

Definition mastery_text (f : json * json * json) : string :=
  let '(i, l, p) := f in
  "Champion " +:+ py_str i +:+ ": Level " +:+ py_str l
              +:+ " - " +:+ py_str p +:+ " pts".

Definition get_champion_masteries (uuid region : string) : outcome json :=
  base ← url_index PLATFORM_URLS region;
  let url := base +:+ "/lol/champion-mastery/v4/champion-masteries/by-puuid/"
                  +:+ uuid in
  data ← riot_req url;
  if is_error_dict data then py_getitem data "message"
  else if negb (py_truthy data) then
    Returned (JStr "Account does not exist on region")
  else
    top ← py_slice_iter data 10;
    results ← for_each mastery_line top;
    Returned (JStr (String.concat nl results)).

Definition get_newest_matches (region uuid : string) (numberOfGames : Z)
  : outcome json :=
  base ← url_index REGIONAL_URLS region;
  let url := base +:+ "/lol/match/v5/matches/by-puuid/" +:+ uuid
                  +:+ "/ids?count=" +:+ str_int numberOfGames in
  data ← riot_req url;
  if is_error_dict data then py_getitem data "message"
  else if negb (py_truthy data) then
    Returned (JStr "Account has no matches or does not exist")
  else
    results ← py_slice_iter data numberOfGames;
    s ← py_join nl results;
    Returned (JStr s).

Definition match_participant_line (p : json) : outcome string :=
  n ← py_getitem p "riotIdGameName";
  c ← py_getitem p "championName";
  k ← py_getitem p "kills";
  d ← py_getitem p "deaths";
  a ← py_getitem p "assists";
  t ← py_getitem p "totalTimeSpentDead";
  w ← py_getitem p "win";
  tp ← py_getitem p "timePlayed";
  Returned (py_str n +:+ " - " +:+ py_str c +:+ " - "
              +:+ py_str k +:+ "/" +:+ py_str d +:+ "/" +:+ py_str a
              +:+ " time spent dead" +:+ py_str t +:+ " - "
              +:+ (if py_truthy w then "Win" else "Loss") +:+ " -" +:+ py_str tp).

Definition get_match_by_id (region match_id : string) : outcome json :=
  base ← url_index REGIONAL_URLS region;
  let url := base +:+ "/lol/match/v5/matches/" +:+ match_id in
  data ← riot_req url;
  if negb (py_truthy data) then Returned (JStr "Match does not exist")
  else
    err ← py_get data "error" JNull;
    if py_truthy err then py_getitem data "message"
    else
      info ← py_getitem data "info";
      mode ← py_getitem info "gameMode";
      dur ← py_getitem info "gameDuration";
      mins ← py_floordiv dur 60;
      let header := "Mode: " +:+ py_str mode +:+ " - Duration: "
                             +:+ str_int mins +:+ "min" in
      ps ← py_getitem info "participants";
      pl ← py_iter ps;
      rows ← for_each match_participant_line pl;
      Returned (JStr (String.concat nl (header :: rows))).

(** One turn of the loop that fills [participant_map]. *)
Definition add_participant (participant_map : gmap pykey participant) (p : json)
  : outcome (gmap pykey participant) :=
  pid ← py_getitem p "participantId";
  a ← py_get p "riotIdGameName" JNull;
  b ← py_get p "summonerName" JNull;
  c ← py_get p "championName" (JStr "Unknown");
  let entry := {| name := py_or a (py_or b (JStr ("Player " +:+ py_str pid)));
                  champion := c |} in
  match hash_key pid with
  | Some k => Returned (<[ k := entry ]> participant_map)
  | None => Raised TypeError
  end.

Fixpoint build_participant_map (participant_map : gmap pykey participant)
  (ps : list json) : outcome (gmap pykey participant) :=
  match ps with
  | [] => Returned participant_map
  | p :: ps' =>
      m ← add_participant participant_map p;
      build_participant_map m ps'
  end.

(** The entry that the loop stores for the participant dict [d] of id
    [pid]. *)
Definition participant_entry (d : list (string * json)) (pid : json)
  : participant :=
  {| name := py_or (default JNull (dict_lookup d "riotIdGameName"))
               (py_or (default JNull (dict_lookup d "summonerName"))
                      (JStr ("Player " +:+ py_str pid)));
     champion := default (JStr "Unknown") (dict_lookup d "championName") |}.

(** [participant_map.get(pid, {})], then the two [.get(..., '?')]. *)
Definition get_label (participant_map : gmap pykey participant) (pid : json)
  : outcome string :=
  match hash_key pid with
  | None => Raised TypeError
  | Some k =>
      match participant_map !! k with
      | Some p => Returned (py_str (name p) +:+ "(" +:+ py_str (champion p) +:+ ")")
      | None => Returned ("?" +:+ "(" +:+ "?" +:+ ")")
      end
  end.

(** [f"[{minutes:02d}:{seconds:02d}] "] *)
Definition stamp (minutes seconds : Z) : string :=
  "[" +:+ fmt_02d minutes +:+ ":" +:+ fmt_02d seconds +:+ "] ".

(** The body of the loop over the events of a frame: the lines it appends to
    [results], none or one. *)
Definition timeline_event (participant_map : gmap pykey participant)
  (minutes seconds : Z) (event : json) : outcome (list string) :=
  etype ← py_get event "type" JNull;
  if is_str etype "CHAMPION_KILL" then
    killer ← py_get event "killerId" (JInt 0);
    victim ← py_get event "victimId" (JInt 0);
    assists ← py_get event "assistingParticipantIds" (JList []);
    lk ← get_label participant_map killer;
    lv ← get_label participant_map victim;
    Returned [stamp minutes seconds +:+ "KILL - Player " +:+ lk
                +:+ " killed Player " +:+ lv +:+ " "
                +:+ "(assists: " +:+ py_str assists +:+ ")"]
  else if is_str etype "BUILDING_KILL" then
    team ← py_get event "teamId" (JInt 0);
    building ← py_get event "buildingType" (JStr "");
    lane ← py_get event "laneType" (JStr "");
    team_name ← map_index team_map team;
    Returned [stamp minutes seconds +:+ "BUILDING - Team " +:+ team_name
                +:+ " lost " +:+ py_str building +:+ " (" +:+ py_str lane +:+ ")"]
  else if is_str etype "ELITE_MONSTER_KILL" then
    killer ← py_get event "killerId" (JInt 0);
    monster ← py_get event "monsterType" (JStr "");
    subtype ← py_get event "monsterSubType" (JStr "");
    lk ← get_label participant_map killer;
    Returned [stamp minutes seconds +:+ "MONSTER - Player " +:+ lk
                +:+ " killed " +:+ py_str monster +:+ " " +:+ py_str subtype]
  else if is_str etype "ITEM_PURCHASED" then
    who ← py_get event "participantId" (JInt 0);
    item_id ← py_get event "itemId" (JInt 0);
    lp ← get_label participant_map who;
    Returned [stamp minutes seconds +:+ "ITEM - Player " +:+ lp
                +:+ " purchased item " +:+ py_str item_id]
  else if is_str etype "SKILL_LEVEL_UP" then
    who ← py_get event "participantId" (JInt 0);
    skill_slot ← py_get event "skillSlot" (JInt 0);
    skill_name ← map_get slot_map skill_slot (py_str skill_slot);
    lp ← get_label participant_map who;
    Returned [stamp minutes seconds +:+ "SKILL - Player " +:+ lp
                +:+ " leveled up " +:+ skill_name]
  else Returned [].

Fixpoint timeline_events (participant_map : gmap pykey participant)
  (minutes seconds : Z) (events : list json) : outcome (list string) :=
  match events with
  | [] => Returned []
  | event :: rest =>
      here ← timeline_event participant_map minutes seconds event;
      later ← timeline_events participant_map minutes seconds rest;
      Returned (here ++ later)%list
  end.

(** The body of the loop over the frames. *)
Definition timeline_frame (participant_map : gmap pykey participant)
  (frame : json) : outcome (list string) :=
  ts ← py_get frame "timestamp" (JInt 0);
  timestamp ← py_floordiv ts 1000;
  let minutes := timestamp / 60 in
  let seconds := timestamp mod 60 in
  evs ← py_get frame "events" (JList []);
  events ← py_iter evs;
  timeline_events participant_map minutes seconds events.

Fixpoint timeline_frames (participant_map : gmap pykey participant)
  (frames : list json) : outcome (list string) :=
  match frames with
  | [] => Returned []
  | frame :: rest =>
      here ← timeline_frame participant_map frame;
      later ← timeline_frames participant_map rest;
      Returned (here ++ later)%list
  end.

(** The summarizer, from the parsed body on. *)
Definition timeline_summary (match_id : string) (data : json) : outcome json :=
  info ← py_get data "info" (JDict []);
  frames ← py_get info "frames" (JList []);
  ps ← py_get info "participants" JNull;
  pl ← py_iter ps;
  participant_map ← build_participant_map ∅ pl;
  fi ← py_get info "frameInterval" (JInt 0);
  secs ← py_floordiv fi 1000;
  let header := "Match: " +:+ match_id +:+ " - Frame interval: "
                          +:+ str_int secs +:+ "s" in
  fl ← py_iter frames;
  rows ← timeline_frames participant_map fl;
  Returned (JStr (String.concat nl (header :: rows))).

Definition get_match_timeline_by_id (region match_id : string) : outcome json :=
  base ← url_index REGIONAL_URLS region;
  let url := base +:+ "/lol/match/v5/matches/" +:+ match_id +:+ "/timeline" in
  data ← riot_req url;
  if negb (py_truthy data) then Returned (JStr "Match does not exist")
  else
    err ← py_get data "error" JNull;
    if py_truthy err then py_getitem data "message"
    else timeline_summary match_id data.

End Server.

(** * Properties *)

(** ** Strings and lines *)

Lemma append_assoc (a b c : string) : (a +:+ b) +:+ c = a +:+ (b +:+ c).
Proof.
  induction a as [|x a IH]; [reflexivity|].
  exact (f_equal (String x) IH).
Qed.

Lemma has_newline_app (a b : string) :
  has_newline (a +:+ b) = has_newline a || has_newline b.
Proof.
  induction a as [|c a IH]; simpl; [reflexivity|].
  rewrite IH. apply orb_assoc.
Qed.

Lemma lines_nonempty (s : string) : lines s <> [].
Proof.
  induction s as [|c s IH]; simpl; [discriminate|].
  destruct (Ascii.eqb c "010"); [discriminate|].
  destruct (lines s); discriminate.
Qed.

Lemma lines_single (s : string) : has_newline s = false -> lines s = [s].
Proof.
  induction s as [|c s IH]; simpl; intros H; [reflexivity|].
  apply orb_false_iff in H as [Hc Hs].
  rewrite Hc, (IH Hs). reflexivity.
Qed.

Lemma lines_app_nl (s t : string) :
  has_newline s = false -> lines (s +:+ nl +:+ t) = s :: lines t.
Proof.
  induction s as [|c s IH]; simpl; intros H; [reflexivity|].
  apply orb_false_iff in H as [Hc Hs].
  rewrite Hc, (IH Hs). reflexivity.
Qed.

Lemma lines_concat (rows : list string) :
  rows <> [] ->
  Forall (fun r => has_newline r = false) rows ->
  lines (String.concat nl rows) = rows.
Proof.
  induction rows as [|r rows IH]; intros Hne Hall; [congruence|].
  inversion Hall as [|? ? Hr Hrows]; subst.
  destruct rows as [|r' rows'].
  - simpl. apply lines_single, Hr.
  - change (String.concat nl (r :: r' :: rows'))
      with (r +:+ nl +:+ String.concat nl (r' :: rows')).
    rewrite lines_app_nl by exact Hr.
    f_equal. apply IH; [discriminate|exact Hrows].
Qed.

Lemma fmt_02d_two_digits (z : Z) :
  0 <= z < 100 -> String.length (fmt_02d z) = 2%nat.
Proof.
  intros Hz.
  assert (Hall : forallb
            (fun n => Nat.eqb (String.length (fmt_02d (Z.of_nat n))) 2)
            (seq 0 100) = true) by (vm_compute; reflexivity).
  rewrite forallb_forall in Hall.
  specialize (Hall (Z.to_nat z)).
  rewrite Z2Nat.id in Hall by lia.
  apply Nat.eqb_eq, Hall, in_seq. lia.
Qed.

(** ** The error monad *)

Lemma bind_Returned {A B} (a : A) (k : A -> outcome B) :
  (Returned a ≫= k) = k a.
Proof. reflexivity. Qed.

Lemma bind_Raised {A B} (e : exn) (k : A -> outcome B) :
  (Raised e ≫= k) = Raised e.
Proof. reflexivity. Qed.

Lemma bind_inv {A B} (m : outcome A) (k : A -> outcome B) (b : B) :
  (m ≫= k) = Returned b -> exists a, m = Returned a /\ k a = Returned b.
Proof.
  destruct m as [a|e]; intros H; [|discriminate].
  exists a. split; [reflexivity|exact H].
Qed.

(** ** The region tables *)





Section Properties.

Variable repr_str : string -> string.
Variable net : string -> http_outcome.

(** ** The fetch adapter *)

Lemma riot_req_timeout (url : string) :
  net url = TimeoutException ->
  riot_req net url = Returned (error_result "Request timeout").
Proof. intros H. unfold riot_req. rewrite H. reflexivity. Qed.

Lemma riot_req_network_error (url detail : string) :
  net url = RequestError detail ->
  riot_req net url = Returned (error_result ("Network error " +:+ detail)).
Proof. intros H. unfold riot_req. rewrite H. reflexivity. Qed.

Lemma riot_req_success (url : string) (r : response) (j : json) :
  net url = Response r ->
  200 <= status_code r < 300 ->
  body r = Some j ->
  riot_req net url = Returned j.
Proof.
  intros Hnet H Hj. unfold riot_req. rewrite Hnet.
  assert (E1 : (status_code r =? 429) = false) by lia.
  assert (E2 : (status_code r =? 404) = false) by lia.
  assert (E3 : (status_code r =? 403) = false) by lia.
  assert (E4 : (status_code r =? 401) = false) by lia.
  rewrite E1, E2, E3, E4. unfold raise_for_status, response_json.
  replace (200 <=? status_code r) with true by lia.
  replace (status_code r <? 300) with true by lia.
  simpl. rewrite Hj. reflexivity.
Qed.

(** C1. The outcome of [riot_req] on a received response, by status.  429
    gives the error dict whose message carries the value of the
    [Retry-After] header, or the word unknown when the header is absent;
    404, 403 and 401 give the error dicts of not found, forbidden and
    unauthorized; a 2xx status gives the parsed JSON body.  Any other
    status outside 2xx is not mapped to a result: the [HTTPStatusError] of
    [raise_for_status] leaves [riot_req] and nothing is returned. *)
Theorem riot_req_status_mapping (url : string) (r : response) :
  net url = Response r ->
  (status_code r = 429 ->
     (forall v, headers r "Retry-After" = Some v ->
        riot_req net url =
          Returned (JDict [("error", JBool true);
                           ("message",
                            JStr ("Rate limit hit. Retry after " +:+ v
                                    +:+ " seconds."))])) /\
     (headers r "Retry-After" = None ->
        riot_req net url =
          Returned (JDict [("error", JBool true);
                           ("message",
                            JStr "Rate limit hit. Retry after unknown seconds.")]))) /\
  (status_code r = 404 ->
     riot_req net url =
       Returned (JDict [("error", JBool true);
                        ("message", JStr "Resource not found")])) /\
  (status_code r = 403 ->
     riot_req net url =
       Returned (JDict [("error", JBool true);
                        ("message", JStr "Invalid or expired API key.")])) /\
  (status_code r = 401 ->
     riot_req net url =
       Returned (JDict [("error", JBool true);
                        ("message", JStr "Unauthorized. Check your API key.")])) /\
  (status_code r <> 429 -> status_code r <> 404 ->
   status_code r <> 403 -> status_code r <> 401 ->
   ~ (200 <= status_code r < 300) ->
     riot_req net url = Raised (HTTPStatusError (status_code r)) /\
     (forall v, riot_req net url <> Returned v)) /\
  (200 <= status_code r < 300 ->
     forall j, body r = Some j -> riot_req net url = Returned j).
Proof.
  intros Hnet.
  split; [|split; [|split; [|split; [|split]]]].
  - intros H. unfold riot_req. rewrite Hnet, H. simpl.
    split; [intros v Hv|intros Hv]; rewrite Hv; reflexivity.
  - intros H. unfold riot_req. rewrite Hnet, H. reflexivity.
  - intros H. unfold riot_req. rewrite Hnet, H. reflexivity.
  - intros H. unfold riot_req. rewrite Hnet, H. reflexivity.
  - intros H1 H2 H3 H4 H5.
    assert (E : riot_req net url = Raised (HTTPStatusError (status_code r))).
    { unfold riot_req. rewrite Hnet.
      apply Z.eqb_neq in H1, H2, H3, H4. rewrite H1, H2, H3, H4.
      unfold raise_for_status.
      destruct (200 <=? status_code r) eqn:Ea;
        destruct (status_code r <? 300) eqn:Eb; simpl; try reflexivity.
      exfalso. apply H5. lia. }
    split; [exact E|]. intros v Hv. rewrite E in Hv. discriminate.
  - intros H j Hj. exact (riot_req_success url r j Hnet H Hj).
Qed.

Lemma fetch_error_result (url : string) :
  is_fetch_error (net url) = true ->
  exists m, riot_req net url = Returned (error_result m).
Proof.
  unfold is_fetch_error, riot_req. destruct (net url) as [r| |detail].
  - intros H.
    destruct (status_code r =? 429); [eauto|].
    destruct (status_code r =? 404); [eauto|].
    destruct (status_code r =? 403); [eauto|].
    destruct (status_code r =? 401); [eauto|discriminate].
  - eauto.
  - eauto.
Qed.

(** ** Error results pass through the tools *)

(** C3. Whenever the fetch of a tool ends in one of the error results of
    [riot_req] (rate limit, not found, forbidden, unauthorized, timeout,
    network error), each of the five tools returns the message of that
    error and nothing else. *)
Theorem error_message_verbatim (region base url : string) :
  is_fetch_error (net url) = true ->
  exists m, riot_req net url = Returned (error_result m) /\
    (forall name tag_line,
       REGIONAL_URLS !! region = Some base ->
       url = base +:+ "/riot/account/v1/accounts/by-riot-id/" +:+ name
                  +:+ "/" +:+ tag_line ->
       get_player_id repr_str net region name tag_line = Returned (JStr m)) /\
    (forall uuid,
       PLATFORM_URLS !! region = Some base ->
       url = base +:+ "/lol/champion-mastery/v4/champion-masteries/by-puuid/"
                  +:+ uuid ->
       get_champion_masteries repr_str net uuid region = Returned (JStr m)) /\
    (forall uuid numberOfGames,
       REGIONAL_URLS !! region = Some base ->
       url = base +:+ "/lol/match/v5/matches/by-puuid/" +:+ uuid
                  +:+ "/ids?count=" +:+ str_int numberOfGames ->
       get_newest_matches net region uuid numberOfGames = Returned (JStr m)) /\
    (forall match_id,
       REGIONAL_URLS !! region = Some base ->
       url = base +:+ "/lol/match/v5/matches/" +:+ match_id ->
       get_match_by_id repr_str net region match_id = Returned (JStr m)) /\
    (forall match_id,
       REGIONAL_URLS !! region = Some base ->
       url = base +:+ "/lol/match/v5/matches/" +:+ match_id +:+ "/timeline" ->
       get_match_timeline_by_id repr_str net region match_id = Returned (JStr m)).
Proof.
  intros Herr. destruct (fetch_error_result url Herr) as [m Hm].
  exists m. split; [exact Hm|].
  repeat split; intros; subst url.
  - unfold get_player_id, url_index. rewrite H. simpl. rewrite Hm. reflexivity.
  - unfold get_champion_masteries, url_index. rewrite H. simpl. rewrite Hm. reflexivity.
  - unfold get_newest_matches, url_index. rewrite H. simpl. rewrite Hm. reflexivity.
  - unfold get_match_by_id, url_index. rewrite H. simpl. rewrite Hm. reflexivity.
  - unfold get_match_timeline_by_id, url_index. rewrite H. simpl. rewrite Hm. reflexivity.
Qed.

(** ** The region tables and the tools *)



(** ** The timeline summarizer: building kills *)

Lemma team_map_lookup (k : pykey) :
  team_map !! k =
    if decide (k = KInt 100) then Some "Blue Team"
    else if decide (k = KInt 200) then Some "Red Team" else None.
Proof.
  unfold team_map.
  destruct (decide (k = KInt 100)) as [->|H1]; [reflexivity|].
  rewrite lookup_insert_ne by congruence.
  destruct (decide (k = KInt 200)) as [->|H2]; [reflexivity|].
  apply lookup_singleton_ne. congruence.
Qed.

Lemma hash_key_100_200 (team : json) (z : Z) :
  z = 100 \/ z = 200 -> hash_key team = Some (KInt z) -> team = JInt z.
Proof.
  intros Hz. destruct team as [|b|z'|s|l|d]; simpl; try discriminate.
  - destruct b; intros [= E]; lia.
  - intros [= E]. congruence.
Qed.

Lemma team_name_unmapped (team : json) :
  team <> JInt 100 -> team <> JInt 200 ->
  exists e, map_index team_map team = Raised e /\
            (forall z, team = JInt z -> e = KeyError (JInt z)).
Proof.
  intros H1 H2. unfold map_index.
  destruct (hash_key team) as [k|] eqn:Ek.
  - rewrite team_map_lookup.
    destruct (decide (k = KInt 100)) as [->|N1].
    { exfalso. apply H1. apply hash_key_100_200; [lia|exact Ek]. }
    destruct (decide (k = KInt 200)) as [->|N2].
    { exfalso. apply H2. apply hash_key_100_200; [lia|exact Ek]. }
    exists (KeyError team). split; [reflexivity|]. intros z ->. reflexivity.
  - exists TypeError. split; [reflexivity|].
    intros z ->. discriminate.
Qed.

(** C5. A [BUILDING_KILL] event is rendered as the line
    [BUILDING - Team <teamName> lost <buildingType> (<laneType>)] after the
    time stamp, where team 100 is the Blue Team and team 200 the Red Team.
    For any other team id the lookup of the team name raises, so the line is
    not rendered: a [KeyError] carrying the id when it is an integer, and in
    particular the [KeyError] of 0 when the event has no [teamId]. *)
Theorem building_kill_line (participant_map : gmap pykey participant)
  (minutes seconds : Z) (d : list (string * json)) (team building lane : json) :
  dict_lookup d "type" = Some (JStr "BUILDING_KILL") ->
  team = default (JInt 0) (dict_lookup d "teamId") ->
  building = default (JStr "") (dict_lookup d "buildingType") ->
  lane = default (JStr "") (dict_lookup d "laneType") ->
  (team = JInt 100 ->
     timeline_event repr_str participant_map minutes seconds (JDict d)
     = Returned [stamp minutes seconds +:+ "BUILDING - Team " +:+ "Blue Team"
                   +:+ " lost " +:+ py_str repr_str building
                   +:+ " (" +:+ py_str repr_str lane +:+ ")"]) /\
  (team = JInt 200 ->
     timeline_event repr_str participant_map minutes seconds (JDict d)
     = Returned [stamp minutes seconds +:+ "BUILDING - Team " +:+ "Red Team"
                   +:+ " lost " +:+ py_str repr_str building
                   +:+ " (" +:+ py_str repr_str lane +:+ ")"]) /\
  (team <> JInt 100 -> team <> JInt 200 ->
     exists e,
       timeline_event repr_str participant_map minutes seconds (JDict d)
       = Raised e /\
       (forall z, team = JInt z -> e = KeyError (JInt z))) /\
  (dict_lookup d "teamId" = None ->
     timeline_event repr_str participant_map minutes seconds (JDict d)
     = Raised (KeyError (JInt 0))).
Proof.
  intros Hty Hteam Hb Hl.
  assert (Hev : timeline_event repr_str participant_map minutes seconds (JDict d)
    = (team_name ← map_index team_map team;
       Returned [stamp minutes seconds +:+ "BUILDING - Team " +:+ team_name
                   +:+ " lost " +:+ py_str repr_str building
                   +:+ " (" +:+ py_str repr_str lane +:+ ")"])).
  { unfold timeline_event, py_get. rewrite Hty, Hteam, Hb, Hl. reflexivity. }
  rewrite Hev. clear Hev.
  split; [|split; [|split]].
  - intros ->. reflexivity.
  - intros ->. reflexivity.
  - intros H1 H2.
    destruct (team_name_unmapped team H1 H2) as (e & He & Hz).
    exists e. rewrite He. split; [reflexivity|exact Hz].
  - intros Hnone. rewrite Hnone in Hteam. subst team. reflexivity.
Qed.

(** ** The timeline summarizer: time stamps, order and labels *)

Ltac unbind H :=
  repeat (let a := fresh "a" in
          let Ha := fresh "Ha" in
          apply bind_inv in H as (a & Ha & H)).

Lemma timeline_event_shape (participant_map : gmap pykey participant)
  (minutes seconds : Z) (event : json) (rows : list string) :
  timeline_event repr_str participant_map minutes seconds event = Returned rows ->
  Forall (fun row => exists rest, row = stamp minutes seconds +:+ rest) rows /\
  length rows = if recognized event then 1%nat else 0%nat.
Proof.
  destruct event as [| | | | |d]; try discriminate.
  unfold timeline_event, recognized, event_type, py_get.
  set (ty := default JNull (dict_lookup d "type")).
  cbn [mbind outcome_bind bind].
  destruct (is_str ty "CHAMPION_KILL").
  { intros H. unbind H.
    injection H as <-. split; [|reflexivity]. repeat constructor. eauto. }
  destruct (is_str ty "BUILDING_KILL").
  { intros H. unbind H.
    injection H as <-. split; [|reflexivity]. repeat constructor. eauto. }
  destruct (is_str ty "ELITE_MONSTER_KILL").
  { intros H. unbind H.
    injection H as <-. split; [|reflexivity]. repeat constructor. eauto. }
  destruct (is_str ty "ITEM_PURCHASED").
  { intros H. unbind H.
    injection H as <-. split; [|reflexivity]. repeat constructor. eauto. }
  destruct (is_str ty "SKILL_LEVEL_UP").
  { intros H. unbind H.
    injection H as <-. split; [|reflexivity]. repeat constructor. eauto. }
  intros [= <-]. split; [constructor|reflexivity].
Qed.

Lemma timeline_events_split (participant_map : gmap pykey participant)
  (minutes seconds : Z) (events : list json) (rows : list string) :
  timeline_events repr_str participant_map minutes seconds events = Returned rows <->
  exists per_event,
    Forall2 (fun event r =>
               timeline_event repr_str participant_map minutes seconds event
               = Returned r) events per_event /\
    rows = List.concat per_event.
Proof.
  revert rows. induction events as [|event rest IH]; intros rows; simpl.
  - split.
    + intros [= <-]. exists []. split; [constructor|reflexivity].
    + intros (per_event & H2 & ->). inversion H2; subst. reflexivity.
  - split.
    + intros H. unbind H. injection H as <-.
      apply IH in Ha0 as (per_event & H2 & ->).
      exists (a :: per_event). split; [constructor; assumption|reflexivity].
    + intros (per_event & H2 & ->).
      inversion H2 as [|? r ? rs Hr Hrs]; subst.
      rewrite Hr. cbn [mbind outcome_bind bind].
      assert (Hrest : timeline_events repr_str participant_map minutes seconds rest
                      = Returned (List.concat rs)) by (apply IH; eauto).
      rewrite Hrest. reflexivity.
Qed.

Lemma timeline_events_raise (participant_map : gmap pykey participant)
  (minutes seconds : Z) (before after : list json) (event : json) (e : exn) :
  Forall (fun ev => exists r,
            timeline_event repr_str participant_map minutes seconds ev
            = Returned r) before ->
  timeline_event repr_str participant_map minutes seconds event = Raised e ->
  timeline_events repr_str participant_map minutes seconds
    (before ++ event :: after)%list = Raised e.
Proof.
  intros Hbefore Hev.
  induction Hbefore as [|ev before' [r Hr] _ IH]; simpl.
  - rewrite Hev. reflexivity.
  - rewrite Hr. cbn [mbind outcome_bind bind]. rewrite IH. reflexivity.
Qed.

(** C8. Every event line of a frame starts with the stamp [[MM:SS]] computed
    from the timestamp of the frame by integer arithmetic: the minutes are
    [(timestamp / 1000) / 60] and the seconds [(timestamp / 1000) mod 60],
    each printed with at least two digits, zero-padded.  A timestamp of
    125000 gives [[02:05]] and a timestamp of 0 gives [[00:00]]. *)
Theorem frame_lines_stamp (participant_map : gmap pykey participant)
  (d : list (string * json)) (ts : Z) (rows : list string) :
  default (JInt 0) (dict_lookup d "timestamp") = JInt ts ->
  timeline_frame repr_str participant_map (JDict d) = Returned rows ->
  Forall (fun row => exists rest,
            row = "[" +:+ fmt_02d (ts / 1000 / 60) +:+ ":"
                      +:+ fmt_02d ((ts / 1000) mod 60) +:+ "] " +:+ rest) rows /\
  (0 <= ts -> String.length (fmt_02d ((ts / 1000) mod 60)) = 2%nat) /\
  (0 <= ts < 6000000 -> String.length (fmt_02d (ts / 1000 / 60)) = 2%nat) /\
  (ts = 125000 ->
     "[" +:+ fmt_02d (ts / 1000 / 60) +:+ ":"
         +:+ fmt_02d ((ts / 1000) mod 60) +:+ "]" = "[02:05]") /\
  (ts = 0 ->
     "[" +:+ fmt_02d (ts / 1000 / 60) +:+ ":"
         +:+ fmt_02d ((ts / 1000) mod 60) +:+ "]" = "[00:00]").
Proof.
  intros Hts Hframe.
  split; [|split; [|split; [|split]]].
  - unfold timeline_frame, py_get in Hframe.
    rewrite Hts in Hframe. cbn [mbind outcome_bind bind py_floordiv] in Hframe.
    unbind Hframe.
    apply timeline_events_split in Hframe as (per_event & H2 & ->).
    apply Forall_concat.
    clear Ha. induction H2 as [|ev r evs rs Hr _ IH]; constructor; [|exact IH].
    apply timeline_event_shape in Hr as [Hr _].
    eapply Forall_impl; [exact Hr|].
    intros row [rest ->]. exists rest. unfold stamp.
    rewrite !append_assoc. reflexivity.
  - intros H0. apply fmt_02d_two_digits.
    pose proof (Z.mod_pos_bound (ts / 1000) 60). lia.
  - intros H0. apply fmt_02d_two_digits.
    assert (0 <= ts / 1000 < 6000) by
      (split; [apply Z.div_pos; lia | apply Z.div_lt_upper_bound; lia]).
    split; [apply Z.div_pos; lia | apply Z.div_lt_upper_bound; lia].
  - intros ->. reflexivity.
  - intros ->. reflexivity.
Qed.

Lemma get_label_hashable (participant_map : gmap pykey participant)
  (pid : json) (k : pykey) :
  hash_key pid = Some k ->
  get_label repr_str participant_map pid =
    Returned (match participant_map !! k with
              | Some p => py_str repr_str (name p) +:+ "("
                            +:+ py_str repr_str (champion p) +:+ ")"
              | None => "?(?)"
              end).
Proof.
  intros Hk. unfold get_label. rewrite Hk.
  destruct (participant_map !! k); reflexivity.
Qed.

(** C9, as amended. The events of a frame are rendered in their given
    order, one line for each event of a recognized type and none for the
    others, whenever the frame is rendered.  A participant is printed by the
    label function, [<displayName>(<championName>)] for an id of the
    participant table and [?(?)] for any other id, the display name and the
    champion name each falling back to a question mark; an event without
    the participant field is labelled as id 0. *)
Theorem timeline_events_render (participant_map : gmap pykey participant)
  (minutes seconds : Z) :
  (forall events rows,
     timeline_events repr_str participant_map minutes seconds events
     = Returned rows ->
     exists per_event,
       Forall2 (fun event r =>
                  timeline_event repr_str participant_map minutes seconds event
                  = Returned r /\
                  length r = if recognized event then 1%nat else 0%nat)
               events per_event /\
       rows = List.concat per_event) /\
  (forall pid k,
     hash_key pid = Some k ->
     get_label repr_str participant_map pid =
       Returned (match participant_map !! k with
                 | Some p => py_str repr_str (name p) +:+ "("
                               +:+ py_str repr_str (champion p) +:+ ")"
                 | None => "?(?)"
                 end)) /\
  (forall d,
     dict_lookup d "type" = Some (JStr "CHAMPION_KILL") ->
     timeline_event repr_str participant_map minutes seconds (JDict d) =
       lk ← get_label repr_str participant_map
              (default (JInt 0) (dict_lookup d "killerId"));
       lv ← get_label repr_str participant_map
              (default (JInt 0) (dict_lookup d "victimId"));
       Returned [stamp minutes seconds +:+ "KILL - Player " +:+ lk
                   +:+ " killed Player " +:+ lv +:+ " (assists: "
                   +:+ py_str repr_str
                         (default (JList [])
                            (dict_lookup d "assistingParticipantIds"))
                   +:+ ")"]) /\
  (forall d,
     dict_lookup d "type" = Some (JStr "ELITE_MONSTER_KILL") ->
     timeline_event repr_str participant_map minutes seconds (JDict d) =
       lk ← get_label repr_str participant_map
              (default (JInt 0) (dict_lookup d "killerId"));
       Returned [stamp minutes seconds +:+ "MONSTER - Player " +:+ lk
                   +:+ " killed "
                   +:+ py_str repr_str
                         (default (JStr "") (dict_lookup d "monsterType"))
                   +:+ " "
                   +:+ py_str repr_str
                         (default (JStr "") (dict_lookup d "monsterSubType"))]) /\
  (forall d,
     dict_lookup d "type" = Some (JStr "ITEM_PURCHASED") ->
     timeline_event repr_str participant_map minutes seconds (JDict d) =
       lp ← get_label repr_str participant_map
              (default (JInt 0) (dict_lookup d "participantId"));
       Returned [stamp minutes seconds +:+ "ITEM - Player " +:+ lp
                   +:+ " purchased item "
                   +:+ py_str repr_str
                         (default (JInt 0) (dict_lookup d "itemId"))]) /\
  (forall d,
     dict_lookup d "type" = Some (JStr "SKILL_LEVEL_UP") ->
     timeline_event repr_str participant_map minutes seconds (JDict d) =
       skill_name ← map_get slot_map
                      (default (JInt 0) (dict_lookup d "skillSlot"))
                      (py_str repr_str
                         (default (JInt 0) (dict_lookup d "skillSlot")));
       lp ← get_label repr_str participant_map
              (default (JInt 0) (dict_lookup d "participantId"));
       Returned [stamp minutes seconds +:+ "SKILL - Player " +:+ lp
                   +:+ " leveled up " +:+ skill_name]).
Proof.
  split; [|split; [|split; [|split; [|split]]]].
  - intros events rows H.
    apply timeline_events_split in H as (per_event & H2 & ->).
    exists per_event. split; [|reflexivity].
    induction H2 as [|ev r evs rs Hr _ IH]; constructor; [|exact IH].
    split; [exact Hr|]. apply timeline_event_shape in Hr as [_ Hr]. exact Hr.
  - apply get_label_hashable.
  - intros d Hty. unfold timeline_event, py_get. rewrite Hty. reflexivity.
  - intros d Hty. unfold timeline_event, py_get. rewrite Hty. reflexivity.
  - intros d Hty. unfold timeline_event, py_get. rewrite Hty. reflexivity.
  - intros d Hty. unfold timeline_event, py_get. rewrite Hty. reflexivity.
Qed.

(** ** The timeline summarizer: absent fields *)

Lemma truthy_dict_with (d : list (string * json)) (k : string) (v : json) :
  dict_lookup d k = Some v -> py_truthy (JDict d) = true.
Proof. destruct d; [discriminate|reflexivity]. Qed.

(** C10. In a successful timeline body, an absent frames list, frame
    interval, frame timestamp or events list, and the absent fields of an
    event, are each replaced by a default: no frames, an interval of 0, a
    timestamp of 0, no events, the id 0, the item 0, the slot 0, the empty
    string and the empty list of assists.  An absent participants list is
    not: when the info object has no [participants] key the loop that
    builds the participant table iterates over [None], the [TypeError]
    leaves the tool, and no string is returned. *)
Theorem timeline_without_participants (region base match_id : string)
  (r : response) (d info : list (string * json)) :
  REGIONAL_URLS !! region = Some base ->
  net (base +:+ "/lol/match/v5/matches/" +:+ match_id +:+ "/timeline")
  = Response r ->
  200 <= status_code r < 300 ->
  body r = Some (JDict d) ->
  py_truthy (default JNull (dict_lookup d "error")) = false ->
  dict_lookup d "info" = Some (JDict info) ->
  (dict_lookup info "participants" = None ->
     get_match_timeline_by_id repr_str net region match_id = Raised TypeError) /\
  (dict_lookup info "participants" = Some (JList []) ->
   dict_lookup info "frames" = None ->
   dict_lookup info "frameInterval" = None ->
     get_match_timeline_by_id repr_str net region match_id
     = Returned (JStr ("Match: " +:+ match_id +:+ " - Frame interval: 0s"))) /\
  (forall participant_map frame,
     dict_lookup frame "timestamp" = None ->
     dict_lookup frame "events" = None ->
     timeline_frame repr_str participant_map (JDict frame) = Returned []) /\
  (forall ps participant_map interval,
     dict_lookup info "participants" = Some (JList ps) ->
     build_participant_map repr_str ∅ ps = Returned participant_map ->
     dict_lookup info "frames" = None ->
     dict_lookup info "frameInterval" = Some (JInt interval) ->
     get_match_timeline_by_id repr_str net region match_id
     = Returned (JStr ("Match: " +:+ match_id +:+ " - Frame interval: "
                                 +:+ str_int (interval / 1000) +:+ "s"))) /\
  (forall ps participant_map frames rows,
     dict_lookup info "participants" = Some (JList ps) ->
     build_participant_map repr_str ∅ ps = Returned participant_map ->
     dict_lookup info "frames" = Some (JList frames) ->
     dict_lookup info "frameInterval" = None ->
     timeline_frames repr_str participant_map frames = Returned rows ->
     get_match_timeline_by_id repr_str net region match_id
     = Returned (JStr (String.concat nl
                         (("Match: " +:+ match_id +:+ " - Frame interval: 0s")
                            :: rows)))) /\
  (forall participant_map frame events,
     dict_lookup frame "timestamp" = None ->
     dict_lookup frame "events" = Some (JList events) ->
     timeline_frame repr_str participant_map (JDict frame)
     = timeline_events repr_str participant_map 0 0 events) /\
  (forall participant_map frame timestamp,
     dict_lookup frame "timestamp" = Some (JInt timestamp) ->
     dict_lookup frame "events" = None ->
     timeline_frame repr_str participant_map (JDict frame) = Returned []) /\
  (forall participant_map minutes seconds event,
     dict_lookup event "type" = Some (JStr "CHAMPION_KILL") ->
     timeline_event repr_str participant_map minutes seconds (JDict event) =
       lk ← get_label repr_str participant_map
              (default (JInt 0) (dict_lookup event "killerId"));
       lv ← get_label repr_str participant_map
              (default (JInt 0) (dict_lookup event "victimId"));
       Returned [stamp minutes seconds +:+ "KILL - Player " +:+ lk
                   +:+ " killed Player " +:+ lv +:+ " (assists: "
                   +:+ py_str repr_str
                         (default (JList [])
                            (dict_lookup event "assistingParticipantIds"))
                   +:+ ")"]) /\
  (forall participant_map minutes seconds event,
     dict_lookup event "type" = Some (JStr "BUILDING_KILL") ->
     timeline_event repr_str participant_map minutes seconds (JDict event) =
       team_name ← map_index team_map
                     (default (JInt 0) (dict_lookup event "teamId"));
       Returned [stamp minutes seconds +:+ "BUILDING - Team " +:+ team_name
                   +:+ " lost "
                   +:+ py_str repr_str
                         (default (JStr "") (dict_lookup event "buildingType"))
                   +:+ " ("
                   +:+ py_str repr_str
                         (default (JStr "") (dict_lookup event "laneType"))
                   +:+ ")"]) /\
  (forall participant_map minutes seconds event,
     dict_lookup event "type" = Some (JStr "ELITE_MONSTER_KILL") ->
     timeline_event repr_str participant_map minutes seconds (JDict event) =
       lk ← get_label repr_str participant_map
              (default (JInt 0) (dict_lookup event "killerId"));
       Returned [stamp minutes seconds +:+ "MONSTER - Player " +:+ lk
                   +:+ " killed "
                   +:+ py_str repr_str
                         (default (JStr "") (dict_lookup event "monsterType"))
                   +:+ " "
                   +:+ py_str repr_str
                         (default (JStr "") (dict_lookup event "monsterSubType"))]) /\
  (forall participant_map minutes seconds event,
     dict_lookup event "type" = Some (JStr "ITEM_PURCHASED") ->
     timeline_event repr_str participant_map minutes seconds (JDict event) =
       lp ← get_label repr_str participant_map
              (default (JInt 0) (dict_lookup event "participantId"));
       Returned [stamp minutes seconds +:+ "ITEM - Player " +:+ lp
                   +:+ " purchased item "
                   +:+ py_str repr_str
                         (default (JInt 0) (dict_lookup event "itemId"))]) /\
  (forall participant_map minutes seconds event,
     dict_lookup event "type" = Some (JStr "SKILL_LEVEL_UP") ->
     timeline_event repr_str participant_map minutes seconds (JDict event) =
       skill_name ← map_get slot_map
                      (default (JInt 0) (dict_lookup event "skillSlot"))
                      (py_str repr_str
                         (default (JInt 0) (dict_lookup event "skillSlot")));
       lp ← get_label repr_str participant_map
              (default (JInt 0) (dict_lookup event "participantId"));
       Returned [stamp minutes seconds +:+ "SKILL - Player " +:+ lp
                   +:+ " leveled up " +:+ skill_name]).
Proof.
  intros Hbase Hnet Hst Hbody Herr Hinfo.
  assert (Htool : get_match_timeline_by_id repr_str net region match_id
                  = timeline_summary repr_str match_id (JDict d)).
  { unfold get_match_timeline_by_id, url_index. rewrite Hbase.
    cbn [mbind outcome_bind bind].
    rewrite (riot_req_success _ r (JDict d) Hnet Hst Hbody).
    cbn [mbind outcome_bind bind].
    rewrite (truthy_dict_with d "info" _ Hinfo).
    unfold py_get. cbn [mbind outcome_bind bind negb].
    rewrite Herr. reflexivity. }
  rewrite Htool. unfold timeline_summary, py_get. rewrite Hinfo. simpl.
  split; [|split; [|split; [|split; [|split; [|split; [|split]]]]]].
  - intros Hp. rewrite Hp. reflexivity.
  - intros Hp Hf Hi. rewrite Hp, Hf, Hi. reflexivity.
  - intros pm frame Ht He. unfold timeline_frame, py_get.
    rewrite Ht, He. reflexivity.
  - intros ps pm interval Hp Hb Hf Hi. rewrite Hp, Hf, Hi. simpl.
    rewrite Hb. reflexivity.
  - intros ps pm frames rows Hp Hb Hf Hi Hrows. rewrite Hp, Hf, Hi. simpl.
    rewrite Hb. simpl. rewrite Hrows. reflexivity.
  - intros pm frame events Ht He. unfold timeline_frame, py_get.
    rewrite Ht, He. reflexivity.
  - intros pm frame ts Ht He. unfold timeline_frame, py_get.
    rewrite Ht, He. reflexivity.
  - repeat split; intros pm mm ss event Hty;
      unfold timeline_event, py_get; rewrite Hty; reflexivity.
Qed.

(** ** Champion masteries and newest matches *)

Lemma mastery_line_fields (mastery : json) (f : json * json * json) :
  mastery_fields repr_str mastery f ->
  mastery_line repr_str mastery = Returned (mastery_text repr_str f) /\
  has_newline (mastery_text repr_str f) = false.
Proof.
  destruct f as [[i l] p]. intros (d & -> & Hi & Hl & Hp & Ni & Nl & Np).
  split.
  - unfold mastery_line, py_getitem. rewrite Hi, Hl, Hp. reflexivity.
  - unfold mastery_text. rewrite !has_newline_app, Ni, Nl, Np. reflexivity.
Qed.

Lemma for_each_mastery_line (top : list json) (fields : list (json * json * json)) :
  Forall2 (mastery_fields repr_str) top fields ->
  for_each (mastery_line repr_str) top
  = Returned (map (mastery_text repr_str) fields) /\
  Forall (fun row => has_newline row = false)
         (map (mastery_text repr_str) fields).
Proof.
  induction 1 as [|m f top fields Hm _ [IH1 IH2]]; simpl.
  - split; [reflexivity|constructor].
  - apply mastery_line_fields in Hm as [Hm Hn].
    rewrite Hm. cbn [mbind outcome_bind bind]. rewrite IH1.
    split; [reflexivity|constructor; assumption].
Qed.

(** C6. When the fetch of the champion-masteries tool succeeds with a list
    of N mastery records, the output has exactly min(N, 10) lines, the line
    of the i-th record being [Champion <id>: Level <level> - <points> pts],
    in the order of the list; for an empty list the output is the fixed
    message that the account does not exist on the region. *)
Theorem champion_masteries_lines (uuid region base : string)
  (data : list json) (fields : list (json * json * json)) :
  PLATFORM_URLS !! region = Some base ->
  riot_req net (base +:+ "/lol/champion-mastery/v4/champion-masteries/by-puuid/"
                     +:+ uuid) = Returned (JList data) ->
  Forall2 (mastery_fields repr_str) (firstn 10 data) fields ->
  exists out,
    get_champion_masteries repr_str net uuid region = Returned (JStr out) /\
    (data = [] -> out = "Account does not exist on region") /\
    (data <> [] ->
       lines out = map (mastery_text repr_str) fields /\
       length (lines out) = Nat.min (length data) 10).
Proof.
  intros Hbase Hreq Hfields.
  unfold get_champion_masteries, url_index. rewrite Hbase.
  cbn [mbind outcome_bind bind]. rewrite Hreq.
  cbn [mbind outcome_bind bind is_error_dict].
  destruct data as [|m data'].
  - eexists. split; [reflexivity|]. split; [reflexivity|congruence].
  - cbn [py_truthy negb py_slice_iter mbind outcome_bind bind].
    change (py_slice_to (m :: data') 10) with (firstn 10 (m :: data')).
    destruct (for_each_mastery_line _ _ Hfields) as [Hrows Hnn].
    rewrite Hrows. cbn [mbind outcome_bind bind].
    eexists. split; [reflexivity|]. split; [discriminate|]. intros _.
    assert (Hlines : lines (String.concat nl (map (mastery_text repr_str) fields))
                     = map (mastery_text repr_str) fields).
    { apply lines_concat; [|exact Hnn].
      inversion Hfields; discriminate. }
    rewrite Hlines. split; [reflexivity|].
    rewrite length_map, <- (Forall2_length _ _ _ Hfields), length_firstn.
    apply Nat.min_comm.
Qed.

Lemma strs_of_strings (ids : list string) :
  strs_of (map JStr ids) = Returned ids.
Proof.
  induction ids as [|s ids IH]; simpl; [reflexivity|].
  rewrite IH. reflexivity.
Qed.

(** C7. With a positive requested count, when the fetch of the
    newest-matches tool succeeds with a non-empty list of match ids, the
    output has exactly min(count, length of the list) lines, the first ids
    of the list in their order, one per line: a count of 5 against 3 ids
    gives 3 lines, a count of 2 against 5 ids gives 2 lines. *)
Theorem newest_matches_lines (region uuid base : string) (numberOfGames : Z)
  (data : list json) (ids : list string) :
  0 < numberOfGames ->
  REGIONAL_URLS !! region = Some base ->
  riot_req net (base +:+ "/lol/match/v5/matches/by-puuid/" +:+ uuid
                     +:+ "/ids?count=" +:+ str_int numberOfGames)
  = Returned (JList data) ->
  data <> [] ->
  firstn (Z.to_nat numberOfGames) data = map JStr ids ->
  Forall (fun id => has_newline id = false) ids ->
  exists out,
    get_newest_matches net region uuid numberOfGames = Returned (JStr out) /\
    lines out = ids /\
    length (lines out) = Nat.min (Z.to_nat numberOfGames) (length data).
Proof.
  intros Hpos Hbase Hreq Hne Hids Hnn.
  unfold get_newest_matches, url_index. rewrite Hbase.
  cbn [mbind outcome_bind bind]. rewrite Hreq.
  cbn [mbind outcome_bind bind is_error_dict].
  destruct data as [|m data']; [congruence|].
  cbn [py_truthy negb py_slice_iter mbind outcome_bind bind].
  unfold py_slice_to. replace (0 <=? numberOfGames) with true by lia.
  rewrite Hids. unfold py_join. rewrite strs_of_strings.
  cbn [mbind outcome_bind bind].
  eexists. split; [reflexivity|].
  assert (Hlines : lines (String.concat nl ids) = ids).
  { apply lines_concat; [|exact Hnn].
    intros ->. destruct (Z.to_nat numberOfGames) eqn:E; [lia|discriminate]. }
  rewrite Hlines. split; [reflexivity|].
  rewrite <- (length_map JStr ids), <- Hids, length_firstn. reflexivity.
Qed.

End Properties.

(** * The statements on the sample data *)

Lemma riot_req_status_mapping_witness :
  riot_req (net_limited "7") "u"
  = Returned (JDict [("error", JBool true);
                     ("message", JStr "Rate limit hit. Retry after 7 seconds.")]) /\
  riot_req (net_status 429) "u"
  = Returned (JDict [("error", JBool true);
                     ("message",
                      JStr "Rate limit hit. Retry after unknown seconds.")]) /\
  riot_req (net_status 404) "u"
  = Returned (JDict [("error", JBool true);
                     ("message", JStr "Resource not found")]) /\
  (riot_req (net_status 503) "u" = Raised (HTTPStatusError 503) /\
   forall v, riot_req (net_status 503) "u" <> Returned v) /\
  riot_req (net_ok sample_masteries) "u" = Returned sample_masteries.
Proof.
  split; [|split; [|split; [|split]]].
  - destruct (riot_req_status_mapping (net_limited "7") "u" _ eq_refl)
      as (H & _). exact (proj1 (H eq_refl) "7" eq_refl).
  - destruct (riot_req_status_mapping (net_status 429) "u" _ eq_refl)
      as (H & _). exact (proj2 (H eq_refl) eq_refl).
  - destruct (riot_req_status_mapping (net_status 404) "u" _ eq_refl)
      as (_ & H & _). exact (H eq_refl).
  - destruct (riot_req_status_mapping (net_status 503) "u" _ eq_refl)
      as (_ & _ & _ & _ & H & _).
    apply H; simpl; lia.
  - destruct (riot_req_status_mapping (net_ok sample_masteries) "u" _ eq_refl)
      as (_ & _ & _ & _ & _ & H).
    apply H; [simpl; lia|reflexivity].
Defined.

(** C2. A response with status 500 leaves [riot_req], and with it every
    tool, as an [HTTPStatusError]: no string is returned.  The four statuses
    next to it are answered with their message. *)
Theorem http_500_escapes_the_tools :
  riot_req (net_status 500) "https://americas.api.riotgames.com/x"
  = Raised (HTTPStatusError 500) /\
  get_player_id quote (net_status 500) "na" "Ann" "NA1"
  = Raised (HTTPStatusError 500) /\
  get_champion_masteries quote (net_status 500) "puuid" "na"
  = Raised (HTTPStatusError 500) /\
  get_newest_matches (net_status 500) "na" "puuid" 5
  = Raised (HTTPStatusError 500) /\
  get_match_by_id quote (net_status 500) "na" "NA1_1"
  = Raised (HTTPStatusError 500) /\
  get_match_timeline_by_id quote (net_status 500) "na" "NA1_1"
  = Raised (HTTPStatusError 500) /\
  get_player_id quote (net_status 404) "na" "Ann" "NA1"
  = Returned (JStr "Resource not found").
Proof. repeat split; vm_compute; reflexivity. Qed.

Lemma error_message_verbatim_witness :
  exists m,
    riot_req (net_status 403) "https://europe.api.riotgames.com/lol/match/v5/matches/EUW1_1"
    = Returned (error_result m) /\
    m = "Invalid or expired API key." /\
    get_match_by_id quote (net_status 403) "euw" "EUW1_1" = Returned (JStr m).
Proof.
  destruct (error_message_verbatim quote (net_status 403) "euw"
              "https://europe.api.riotgames.com"
              "https://europe.api.riotgames.com/lol/match/v5/matches/EUW1_1"
              eq_refl) as (m & Hm & _ & _ & _ & H & _).
  exists m. split; [exact Hm|]. split.
  - vm_compute in Hm. injection Hm as <-. reflexivity.
  - apply H; reflexivity.
Defined.



Lemma building_kill_line_witness :
  timeline_event quote sample_table 2 5
    (JDict [("type", JStr "BUILDING_KILL"); ("teamId", JInt 200);
            ("buildingType", JStr "TOWER_BUILDING"); ("laneType", JStr "TOP_LANE")])
  = Returned ["[02:05] BUILDING - Team Red Team lost TOWER_BUILDING (TOP_LANE)"] /\
  timeline_event quote sample_table 2 5
    (JDict [("type", JStr "BUILDING_KILL"); ("buildingType", JStr "TOWER_BUILDING")])
  = Raised (KeyError (JInt 0)).
Proof.
  split.
  - destruct (building_kill_line quote sample_table 2 5
                [("type", JStr "BUILDING_KILL"); ("teamId", JInt 200);
                 ("buildingType", JStr "TOWER_BUILDING");
                 ("laneType", JStr "TOP_LANE")]
                _ _ _ eq_refl eq_refl eq_refl eq_refl) as (_ & H & _).
    exact (H eq_refl).
  - destruct (building_kill_line quote sample_table 2 5
                [("type", JStr "BUILDING_KILL");
                 ("buildingType", JStr "TOWER_BUILDING")]
                _ _ _ eq_refl eq_refl eq_refl eq_refl) as (_ & _ & _ & H).
    exact (H eq_refl).
Defined.

Example building_kill_fails_the_summary :
  get_match_timeline_by_id quote
    (net_ok (JDict [("info", JDict [
       ("participants", sample_participants);
       ("frames", JList [JDict [("timestamp", JInt 60000); ("events", JList [
          JDict [("type", JStr "ITEM_PURCHASED"); ("participantId", JInt 1);
                 ("itemId", JInt 1055)];
          JDict [("type", JStr "BUILDING_KILL"); ("teamId", JInt 300)]])]])])]))
    "na" "NA1_1"
  = Raised (KeyError (JInt 300)).
Proof. vm_compute. reflexivity. Qed.

Lemma champion_masteries_lines_witness :
  exists out,
    get_champion_masteries quote (net_ok sample_masteries) "puuid" "euw"
    = Returned (JStr out) /\
    lines out = ["Champion 103: Level 7 - 120034 pts";
                 "Champion 22: Level 5 - 31000 pts"] /\
    length (lines out) = 2%nat.
Proof.
  assert (Hfields : Forall2 (mastery_fields quote)
            (firstn 10 [ JDict [("championId", JInt 103); ("championLevel", JInt 7);
                                ("championPoints", JInt 120034)];
                         JDict [("championId", JInt 22); ("championLevel", JInt 5);
                                ("championPoints", JInt 31000)] ])
            [ (JInt 103, JInt 7, JInt 120034); (JInt 22, JInt 5, JInt 31000) ]).
  { simpl. repeat (constructor; [eexists; repeat split; reflexivity|]).
    constructor. }
  destruct (champion_masteries_lines quote (net_ok sample_masteries)
              "puuid" "euw" "https://euw1.api.riotgames.com" _ _
              eq_refl eq_refl Hfields) as (out & Hout & _ & Hlines).
  exists out. split; [exact Hout|].
  apply Hlines. discriminate.
Defined.

Example champion_masteries_top_ten :
  get_champion_masteries quote
    (net_ok (JList (map (fun z => JDict [("championId", JInt z);
                                         ("championLevel", JInt 1);
                                         ("championPoints", JInt 10)])
                        [1; 2; 3; 4; 5; 6; 7; 8; 9; 10; 11; 12])))
    "puuid" "kr"
  = Returned (JStr (String.concat nl
      (map (fun z => "Champion " +:+ str_int z +:+ ": Level 1 - 10 pts")
           [1; 2; 3; 4; 5; 6; 7; 8; 9; 10]))).
Proof. vm_compute. reflexivity. Qed.

Example champion_masteries_empty :
  get_champion_masteries quote (net_ok (JList [])) "puuid" "kr"
  = Returned (JStr "Account does not exist on region").
Proof. vm_compute. reflexivity. Qed.

Lemma newest_matches_lines_witness :
  (exists out,
     get_newest_matches (net_ok (JList [JStr "NA1_3"; JStr "NA1_2"; JStr "NA1_1"]))
       "na" "puuid" 5 = Returned (JStr out) /\
     lines out = ["NA1_3"; "NA1_2"; "NA1_1"] /\
     length (lines out) = 3%nat) /\
  (exists out,
     get_newest_matches
       (net_ok (JList [JStr "NA1_5"; JStr "NA1_4"; JStr "NA1_3"; JStr "NA1_2";
                       JStr "NA1_1"]))
       "na" "puuid" 2 = Returned (JStr out) /\
     lines out = ["NA1_5"; "NA1_4"] /\
     length (lines out) = 2%nat).
Proof.
  split.
  - apply (newest_matches_lines
             (net_ok (JList [JStr "NA1_3"; JStr "NA1_2"; JStr "NA1_1"]))
             "na" "puuid" "https://americas.api.riotgames.com" 5
             [JStr "NA1_3"; JStr "NA1_2"; JStr "NA1_1"]
             ["NA1_3"; "NA1_2"; "NA1_1"]);
      [lia|reflexivity|reflexivity|discriminate|reflexivity|].
    repeat constructor.
  - apply (newest_matches_lines
             (net_ok (JList [JStr "NA1_5"; JStr "NA1_4"; JStr "NA1_3";
                             JStr "NA1_2"; JStr "NA1_1"]))
             "na" "puuid" "https://americas.api.riotgames.com" 2
             [JStr "NA1_5"; JStr "NA1_4"; JStr "NA1_3"; JStr "NA1_2"; JStr "NA1_1"]
             ["NA1_5"; "NA1_4"]);
      [lia|reflexivity|reflexivity|discriminate|reflexivity|].
    repeat constructor.
Defined.

Lemma frame_lines_stamp_witness :
  exists rows,
    timeline_frame quote sample_table (JDict sample_frame) = Returned rows /\
    length rows = 4%nat /\
    Forall (fun row => exists rest, row = "[02:05] " +:+ rest) rows.
Proof.
  eexists. split; [vm_compute; reflexivity|]. split; [reflexivity|].
  exact (proj1 (frame_lines_stamp quote sample_table sample_frame 125000 _
                  eq_refl eq_refl)).
Defined.

Example frame_stamp_examples :
  stamp (125000 / 1000 / 60) ((125000 / 1000) mod 60) = "[02:05] " /\
  stamp (0 / 1000 / 60) ((0 / 1000) mod 60) = "[00:00] " /\
  stamp (3725000 / 1000 / 60) ((3725000 / 1000) mod 60) = "[62:05] ".
Proof. repeat split; vm_compute; reflexivity. Qed.

Lemma unknown_label_is_not_a_question_mark :
  get_label quote sample_table (JInt 0) = Returned "?(?)" /\
  get_label quote sample_table (JInt 0) <> Returned "?" /\
  timeline_event quote sample_table 2 5
    (JDict [("type", JStr "ITEM_PURCHASED"); ("itemId", JInt 1055)])
  = Returned ["[02:05] ITEM - Player ?(?) purchased item 1055"].
Proof.
  split; [vm_compute; reflexivity|].
  split; [vm_compute; discriminate|vm_compute; reflexivity].
Qed.

Lemma timeline_events_render_witness :
  (exists per_event,
     Forall2 (fun event r =>
                timeline_event quote sample_table 2 5 event = Returned r /\
                length r = if recognized event then 1%nat else 0%nat)
             sample_events per_event /\
     [ "[02:05] KILL - Player Ann(Ahri) killed Player Bob(Unknown) (assists: [3, 4])";
       "[02:05] BUILDING - Team Blue Team lost TOWER_BUILDING (MID_LANE)";
       "[02:05] SKILL - Player ?(?) leveled up 7";
       "[02:05] ITEM - Player Bob(Unknown) purchased item 1055" ]
     = List.concat per_event) /\
  get_label quote sample_table (JInt 1) = Returned "Ann(Ahri)" /\
  get_label quote sample_table (JInt 7) = Returned "?(?)".
Proof.
  destruct (timeline_events_render quote sample_table 2 5) as (Hev & Hlab & _).
  split; [|split].
  - apply Hev. vm_compute. reflexivity.
  - exact (Hlab (JInt 1) (KInt 1) eq_refl).
  - exact (Hlab (JInt 7) (KInt 7) eq_refl).
Defined.

Lemma timeline_without_participants_witness :
  get_match_timeline_by_id quote
    (net_ok (JDict [("info", JDict [("frameInterval", JInt 60000);
                                    ("frames", JList [JDict sample_frame])])]))
    "kr" "KR_1" = Raised TypeError /\
  get_match_timeline_by_id quote
    (net_ok (JDict [("info", JDict [("participants", JList [])])]))
    "kr" "KR_1" = Returned (JStr "Match: KR_1 - Frame interval: 0s") /\
  get_match_timeline_by_id quote
    (net_ok (JDict [("info", JDict [
       ("participants", sample_participants);
       ("frames", JList [JDict [("events", JList [
          JDict [("type", JStr "ITEM_PURCHASED")];
          JDict [("type", JStr "CHAMPION_KILL")]])]])])]))
    "kr" "KR_1"
  = Returned (JStr (String.concat nl
      [ "Match: KR_1 - Frame interval: 0s";
        "[00:00] ITEM - Player ?(?) purchased item 0";
        "[00:00] KILL - Player ?(?) killed Player ?(?) (assists: [])" ])) /\
  timeline_frame quote sample_table
    (JDict [("events", JList [JDict [("type", JStr "SKILL_LEVEL_UP")]])])
  = Returned ["[00:00] SKILL - Player ?(?) leveled up 0"] /\
  timeline_event quote sample_table 2 5
    (JDict [("type", JStr "ELITE_MONSTER_KILL"); ("killerId", JInt 1)])
  = Returned ["[02:05] MONSTER - Player Ann(Ahri) killed  "].
Proof.
  pose proof (timeline_without_participants quote
                (net_ok (JDict [("info", JDict [("frameInterval", JInt 60000);
                                                ("frames", JList [JDict sample_frame])])]))
                "kr" "https://asia.api.riotgames.com" "KR_1" _ _ _
                eq_refl eq_refl ltac:(simpl; lia) eq_refl eq_refl eq_refl)
    as (H1 & _ & _ & _ & _ & Hts & _ & _ & _ & Hmonster & _).
  pose proof (timeline_without_participants quote
                (net_ok (JDict [("info", JDict [("participants", JList [])])]))
                "kr" "https://asia.api.riotgames.com" "KR_1" _ _ _
                eq_refl eq_refl ltac:(simpl; lia) eq_refl eq_refl eq_refl)
    as (_ & H2 & _).
  pose proof (timeline_without_participants quote
                (net_ok (JDict [("info", JDict [
                   ("participants", sample_participants);
                   ("frames", JList [JDict [("events", JList [
                      JDict [("type", JStr "ITEM_PURCHASED")];
                      JDict [("type", JStr "CHAMPION_KILL")]])]])])]))
                "kr" "https://asia.api.riotgames.com" "KR_1" _ _ _
                eq_refl eq_refl ltac:(simpl; lia) eq_refl eq_refl eq_refl)
    as (_ & _ & _ & _ & H5 & _).
  split; [|split; [|split; [|split]]].
  - exact (H1 eq_refl).
  - exact (H2 eq_refl eq_refl eq_refl).
  - eapply H5;
      [reflexivity|vm_compute; reflexivity|reflexivity|reflexivity
      |vm_compute; reflexivity].
  - rewrite (Hts sample_table
               [("events", JList [JDict [("type", JStr "SKILL_LEVEL_UP")]])]
               _ eq_refl eq_refl).
    vm_compute. reflexivity.
  - rewrite (Hmonster sample_table 2 5
               [("type", JStr "ELITE_MONSTER_KILL"); ("killerId", JInt 1)]
               eq_refl).
    vm_compute. reflexivity.
Defined.

Example sample_timeline_summary :
  get_match_timeline_by_id quote (net_ok sample_timeline) "na" "NA1_1"
  = Returned (JStr (String.concat nl
      [ "Match: NA1_1 - Frame interval: 60s";
        "[02:05] KILL - Player Ann(Ahri) killed Player Bob(Unknown) (assists: [3, 4])";
        "[02:05] BUILDING - Team Blue Team lost TOWER_BUILDING (MID_LANE)";
        "[02:05] SKILL - Player ?(?) leveled up 7";
        "[02:05] ITEM - Player Bob(Unknown) purchased item 1055" ])).
Proof. vm_compute. reflexivity. Qed.

(** * Further properties of the tools *)

Section Tools.

Variable repr_str : string -> string.
Variable net : string -> http_outcome.

(** ** Bodies that are empty, are not a dict or look like an error *)

Lemma truthy_error_dict (d : list (string * json)) :
  py_truthy (default JNull (dict_lookup d "error")) = true ->
  py_truthy (JDict d) = true.
Proof. destruct d; [discriminate|reflexivity]. Qed.

(** X2. When the fetch gives a falsy value (null, an empty dict or list, 0,
    an empty string, false), each tool answers with its own fixed message
    and looks no further into the value. *)
Theorem falsy_body_messages (region base url : string) (data : json) :
  riot_req net url = Returned data ->
  py_truthy data = false ->
  (forall name tag_line,
     REGIONAL_URLS !! region = Some base ->
     url = base +:+ "/riot/account/v1/accounts/by-riot-id/" +:+ name
                +:+ "/" +:+ tag_line ->
     get_player_id repr_str net region name tag_line
     = Returned (JStr "Found no account with that name in the server")) /\
  (forall uuid,
     PLATFORM_URLS !! region = Some base ->
     url = base +:+ "/lol/champion-mastery/v4/champion-masteries/by-puuid/"
                +:+ uuid ->
     get_champion_masteries repr_str net uuid region
     = Returned (JStr "Account does not exist on region")) /\
  (forall uuid numberOfGames,
     REGIONAL_URLS !! region = Some base ->
     url = base +:+ "/lol/match/v5/matches/by-puuid/" +:+ uuid
                +:+ "/ids?count=" +:+ str_int numberOfGames ->
     get_newest_matches net region uuid numberOfGames
     = Returned (JStr "Account has no matches or does not exist")) /\
  (forall match_id,
     REGIONAL_URLS !! region = Some base ->
     url = base +:+ "/lol/match/v5/matches/" +:+ match_id ->
     get_match_by_id repr_str net region match_id
     = Returned (JStr "Match does not exist")) /\
  (forall match_id,
     REGIONAL_URLS !! region = Some base ->
     url = base +:+ "/lol/match/v5/matches/" +:+ match_id +:+ "/timeline" ->
     get_match_timeline_by_id repr_str net region match_id
     = Returned (JStr "Match does not exist")).
Proof.
  intros Hreq Hfalsy.
  assert (Hnoerr : is_error_dict data = false).
  { destruct data as [| | | | |d]; try reflexivity.
    destruct d; [reflexivity|discriminate]. }
  split; [|split; [|split; [|split]]].
  - intros name tag_line Hbase ->.
    unfold get_player_id, url_index. rewrite Hbase.
    cbn [mbind outcome_bind bind]. rewrite Hreq.
    cbn [mbind outcome_bind bind]. rewrite Hfalsy. reflexivity.
  - intros uuid Hbase ->.
    unfold get_champion_masteries, url_index. rewrite Hbase.
    cbn [mbind outcome_bind bind]. rewrite Hreq.
    cbn [mbind outcome_bind bind]. rewrite Hnoerr, Hfalsy. reflexivity.
  - intros uuid n Hbase ->.
    unfold get_newest_matches, url_index. rewrite Hbase.
    cbn [mbind outcome_bind bind]. rewrite Hreq.
    cbn [mbind outcome_bind bind]. rewrite Hnoerr, Hfalsy. reflexivity.
  - intros match_id Hbase ->.
    unfold get_match_by_id, url_index. rewrite Hbase.
    cbn [mbind outcome_bind bind]. rewrite Hreq.
    cbn [mbind outcome_bind bind]. rewrite Hfalsy. reflexivity.
  - intros match_id Hbase ->.
    unfold get_match_timeline_by_id, url_index. rewrite Hbase.
    cbn [mbind outcome_bind bind]. rewrite Hreq.
    cbn [mbind outcome_bind bind]. rewrite Hfalsy. reflexivity.
Qed.

(** X3. A fetched dict with a truthy [error] entry is taken for an error
    result whatever its origin, a 2xx body included: each tool returns its
    [message] entry as it is, of whatever type, and raises the [KeyError] of
    [message] when there is none. *)
Theorem error_shaped_body (region base url : string) (d : list (string * json)) :
  riot_req net url = Returned (JDict d) ->
  py_truthy (default JNull (dict_lookup d "error")) = true ->
  (forall name tag_line,
     REGIONAL_URLS !! region = Some base ->
     url = base +:+ "/riot/account/v1/accounts/by-riot-id/" +:+ name
                +:+ "/" +:+ tag_line ->
     get_player_id repr_str net region name tag_line
     = py_getitem (JDict d) "message") /\
  (forall uuid,
     PLATFORM_URLS !! region = Some base ->
     url = base +:+ "/lol/champion-mastery/v4/champion-masteries/by-puuid/"
                +:+ uuid ->
     get_champion_masteries repr_str net uuid region
     = py_getitem (JDict d) "message") /\
  (forall uuid numberOfGames,
     REGIONAL_URLS !! region = Some base ->
     url = base +:+ "/lol/match/v5/matches/by-puuid/" +:+ uuid
                +:+ "/ids?count=" +:+ str_int numberOfGames ->
     get_newest_matches net region uuid numberOfGames
     = py_getitem (JDict d) "message") /\
  (forall match_id,
     REGIONAL_URLS !! region = Some base ->
     url = base +:+ "/lol/match/v5/matches/" +:+ match_id ->
     get_match_by_id repr_str net region match_id
     = py_getitem (JDict d) "message") /\
  (forall match_id,
     REGIONAL_URLS !! region = Some base ->
     url = base +:+ "/lol/match/v5/matches/" +:+ match_id +:+ "/timeline" ->
     get_match_timeline_by_id repr_str net region match_id
     = py_getitem (JDict d) "message") /\
  (forall v, dict_lookup d "message" = Some v ->
             py_getitem (JDict d) "message" = Returned v) /\
  (dict_lookup d "message" = None ->
   py_getitem (JDict d) "message" = Raised (KeyError (JStr "message"))).
Proof.
  intros Hreq Herr.
  pose proof (truthy_error_dict d Herr) as Htruthy.
  split; [|split; [|split; [|split; [|split; [|split]]]]].
  - intros name tag_line Hbase ->.
    unfold get_player_id, url_index. rewrite Hbase.
    cbn [mbind outcome_bind bind]. rewrite Hreq.
    cbn [mbind outcome_bind bind]. rewrite Htruthy.
    cbn [negb py_get mbind outcome_bind bind]. rewrite Herr. reflexivity.
  - intros uuid Hbase ->.
    unfold get_champion_masteries, url_index. rewrite Hbase.
    cbn [mbind outcome_bind bind]. rewrite Hreq.
    cbn [mbind outcome_bind bind is_error_dict]. rewrite Herr. reflexivity.
  - intros uuid n Hbase ->.
    unfold get_newest_matches, url_index. rewrite Hbase.
    cbn [mbind outcome_bind bind]. rewrite Hreq.
    cbn [mbind outcome_bind bind is_error_dict]. rewrite Herr. reflexivity.
  - intros match_id Hbase ->.
    unfold get_match_by_id, url_index. rewrite Hbase.
    cbn [mbind outcome_bind bind]. rewrite Hreq.
    cbn [mbind outcome_bind bind]. rewrite Htruthy.
    cbn [negb py_get mbind outcome_bind bind]. rewrite Herr. reflexivity.
  - intros match_id Hbase ->.
    unfold get_match_timeline_by_id, url_index. rewrite Hbase.
    cbn [mbind outcome_bind bind]. rewrite Hreq.
    cbn [mbind outcome_bind bind]. rewrite Htruthy.
    cbn [negb py_get mbind outcome_bind bind]. rewrite Herr. reflexivity.
  - intros v Hv. unfold py_getitem. rewrite Hv. reflexivity.
  - intros Hv. unfold py_getitem. rewrite Hv. reflexivity.
Qed.

(** X4. A fetched value that is truthy and not a dict (a non-empty list or
    string, a non-zero number, true) makes the player, match and timeline
    tools raise [AttributeError] at [data.get]; only the masteries and the
    newest-matches tools test for a dict first. *)
Theorem non_dict_body_raises (region base url : string) (data : json) :
  riot_req net url = Returned data ->
  py_truthy data = true ->
  (forall d, data <> JDict d) ->
  REGIONAL_URLS !! region = Some base ->
  (forall name tag_line,
     url = base +:+ "/riot/account/v1/accounts/by-riot-id/" +:+ name
                +:+ "/" +:+ tag_line ->
     get_player_id repr_str net region name tag_line = Raised AttributeError) /\
  (forall match_id,
     url = base +:+ "/lol/match/v5/matches/" +:+ match_id ->
     get_match_by_id repr_str net region match_id = Raised AttributeError) /\
  (forall match_id,
     url = base +:+ "/lol/match/v5/matches/" +:+ match_id +:+ "/timeline" ->
     get_match_timeline_by_id repr_str net region match_id
     = Raised AttributeError).
Proof.
  intros Hreq Htruthy Hnd Hbase.
  assert (Hget : py_get data "error" JNull = Raised AttributeError).
  { destruct data as [| | | | |d]; try reflexivity.
    exfalso. exact (Hnd d eq_refl). }
  split; [|split].
  - intros name tag_line ->.
    unfold get_player_id, url_index. rewrite Hbase.
    cbn [mbind outcome_bind bind]. rewrite Hreq.
    cbn [mbind outcome_bind bind]. rewrite Htruthy, Hget. reflexivity.
  - intros match_id ->.
    unfold get_match_by_id, url_index. rewrite Hbase.
    cbn [mbind outcome_bind bind]. rewrite Hreq.
    cbn [mbind outcome_bind bind]. rewrite Htruthy, Hget. reflexivity.
  - intros match_id ->.
    unfold get_match_timeline_by_id, url_index. rewrite Hbase.
    cbn [mbind outcome_bind bind]. rewrite Hreq.
    cbn [mbind outcome_bind bind]. rewrite Htruthy, Hget. reflexivity.
Qed.

(** ** Loops *)

Ltac unbind H :=
  repeat (let a := fresh "a" in
          let Ha := fresh "Ha" in
          apply bind_inv in H as (a & Ha & H)).

Lemma uint_digits_no_newline (u : Decimal.uint) :
  has_newline (NilEmpty.string_of_uint u) = false.
Proof. induction u; simpl; assumption || reflexivity. Qed.

Lemma uint_no_newline (u : Decimal.uint) :
  has_newline (NilZero.string_of_uint u) = false.
Proof.
  destruct u; try reflexivity;
    exact (uint_digits_no_newline _).
Qed.

Lemma str_int_no_newline (z : Z) : has_newline (str_int z) = false.
Proof.
  unfold str_int, NilZero.string_of_int.
  destruct (Z.to_int z) as [u|u]; simpl; apply uint_no_newline.
Qed.

Lemma for_each_Forall2 {A B} (f : A -> outcome B) (l : list A) (rows : list B) :
  for_each f l = Returned rows <->
  Forall2 (fun a b => f a = Returned b) l rows.
Proof.
  revert rows. induction l as [|a l IH]; intros rows; simpl.
  - split.
    + intros [= <-]. constructor.
    + intros H. inversion H. reflexivity.
  - split.
    + intros H. unbind H. injection H as <-.
      constructor; [assumption|]. apply IH. assumption.
    + intros H. inversion H as [|? b ? bs Hb Hbs]; subst.
      rewrite Hb. cbn [mbind outcome_bind bind].
      apply IH in Hbs. rewrite Hbs. reflexivity.
Qed.

Lemma for_each_raise {A B} (f : A -> outcome B) (before after : list A)
  (a : A) (e : exn) :
  Forall (fun x => exists b, f x = Returned b) before ->
  f a = Raised e ->
  for_each f (before ++ a :: after)%list = Raised e.
Proof.
  intros Hbefore Ha.
  induction Hbefore as [|x before' [b Hb] _ IH]; simpl.
  - rewrite Ha. reflexivity.
  - rewrite Hb. cbn [mbind outcome_bind bind]. rewrite IH. reflexivity.
Qed.

(** ** The player lookup *)

(** X5. On a fetched account dict that is not an error, the player tool
    returns [Name:<gameName>#<tagLine> PUUID: <puuid>]; when one of the
    three fields is missing it raises the [KeyError] of the first missing
    one, in the order gameName, tagLine, puuid. *)
Theorem player_id_render (region base name tag_line : string)
  (d : list (string * json)) :
  REGIONAL_URLS !! region = Some base ->
  riot_req net (base +:+ "/riot/account/v1/accounts/by-riot-id/" +:+ name
                     +:+ "/" +:+ tag_line) = Returned (JDict d) ->
  d <> [] ->
  py_truthy (default JNull (dict_lookup d "error")) = false ->
  (forall g t p,
     dict_lookup d "gameName" = Some g ->
     dict_lookup d "tagLine" = Some t ->
     dict_lookup d "puuid" = Some p ->
     get_player_id repr_str net region name tag_line
     = Returned (JStr ("Name:" +:+ py_str repr_str g +:+ "#"
                               +:+ py_str repr_str t +:+ " PUUID: "
                               +:+ py_str repr_str p))) /\
  (dict_lookup d "gameName" = None ->
     get_player_id repr_str net region name tag_line
     = Raised (KeyError (JStr "gameName"))) /\
  (forall g,
     dict_lookup d "gameName" = Some g ->
     dict_lookup d "tagLine" = None ->
     get_player_id repr_str net region name tag_line
     = Raised (KeyError (JStr "tagLine"))) /\
  (forall g t,
     dict_lookup d "gameName" = Some g ->
     dict_lookup d "tagLine" = Some t ->
     dict_lookup d "puuid" = None ->
     get_player_id repr_str net region name tag_line
     = Raised (KeyError (JStr "puuid"))).
Proof.
  intros Hbase Hreq Hne Herr.
  assert (Htool : get_player_id repr_str net region name tag_line
    = (g ← py_getitem (JDict d) "gameName";
       t ← py_getitem (JDict d) "tagLine";
       p ← py_getitem (JDict d) "puuid";
       Returned (JStr ("Name:" +:+ py_str repr_str g +:+ "#"
                               +:+ py_str repr_str t +:+ " PUUID: "
                               +:+ py_str repr_str p)))).
  { unfold get_player_id, url_index. rewrite Hbase.
    cbn [mbind outcome_bind bind]. rewrite Hreq.
    cbn [mbind outcome_bind bind].
    destruct d as [|kv d']; [congruence|].
    cbn [py_truthy negb py_get mbind outcome_bind bind].
    rewrite Herr. reflexivity. }
  rewrite Htool. unfold py_getitem.
  split; [|split; [|split]].
  - intros g t p Hg Ht Hp. rewrite Hg, Ht, Hp. reflexivity.
  - intros Hg. rewrite Hg. reflexivity.
  - intros g Hg Ht. rewrite Hg, Ht. reflexivity.
  - intros g t Hg Ht Hp. rewrite Hg, Ht, Hp. reflexivity.
Qed.

(** ** The match detail *)

Lemma match_detail_enter (region base match_id : string)
  (d : list (string * json)) :
  REGIONAL_URLS !! region = Some base ->
  riot_req net (base +:+ "/lol/match/v5/matches/" +:+ match_id)
  = Returned (JDict d) ->
  d <> [] ->
  py_truthy (default JNull (dict_lookup d "error")) = false ->
  get_match_by_id repr_str net region match_id =
    (info ← py_getitem (JDict d) "info";
     mode ← py_getitem info "gameMode";
     dur ← py_getitem info "gameDuration";
     mins ← py_floordiv dur 60;
     ps ← py_getitem info "participants";
     pl ← py_iter ps;
     rows ← for_each (match_participant_line repr_str) pl;
     Returned (JStr (String.concat nl
                       (("Mode: " +:+ py_str repr_str mode +:+ " - Duration: "
                                  +:+ str_int mins +:+ "min") :: rows)))).
Proof.
  intros Hbase Hreq Hne Herr.
  unfold get_match_by_id, url_index. rewrite Hbase.
  cbn [mbind outcome_bind bind]. rewrite Hreq.
  cbn [mbind outcome_bind bind].
  destruct d as [|kv d']; [congruence|].
  cbn [py_truthy negb py_get mbind outcome_bind bind].
  rewrite Herr. reflexivity.
Qed.

(** X6. On a fetched match document the match tool returns the header
    [Mode: <gameMode> - Duration: <gameDuration // 60>min], the minutes by
    floor division, followed by the line of each participant in the order
    of the list, joined by newlines: one line per participant. *)
Theorem match_detail_render (region base match_id : string)
  (d info : list (string * json)) (mode : json) (dur : Z)
  (ps : list json) (rows : list string) :
  REGIONAL_URLS !! region = Some base ->
  riot_req net (base +:+ "/lol/match/v5/matches/" +:+ match_id)
  = Returned (JDict d) ->
  py_truthy (default JNull (dict_lookup d "error")) = false ->
  dict_lookup d "info" = Some (JDict info) ->
  dict_lookup info "gameMode" = Some mode ->
  dict_lookup info "gameDuration" = Some (JInt dur) ->
  dict_lookup info "participants" = Some (JList ps) ->
  Forall2 (fun p row => match_participant_line repr_str p = Returned row) ps rows ->
  get_match_by_id repr_str net region match_id
  = Returned (JStr (String.concat nl
                      (("Mode: " +:+ py_str repr_str mode +:+ " - Duration: "
                                 +:+ str_int (dur / 60) +:+ "min") :: rows))) /\
  length rows = length ps /\
  (Forall (fun row => has_newline row = false) rows ->
   has_newline (py_str repr_str mode) = false ->
   lines (String.concat nl
            (("Mode: " +:+ py_str repr_str mode +:+ " - Duration: "
                       +:+ str_int (dur / 60) +:+ "min") :: rows))
   = ("Mode: " +:+ py_str repr_str mode +:+ " - Duration: "
               +:+ str_int (dur / 60) +:+ "min") :: rows).
Proof.
  intros Hbase Hreq Herr Hinfo Hmode Hdur Hps Hrows.
  split; [|split].
  - rewrite (match_detail_enter region base match_id d Hbase Hreq); [|destruct d; [discriminate|congruence]|exact Herr].
    unfold py_getitem. rewrite Hinfo. cbn [mbind outcome_bind bind].
    rewrite Hmode, Hdur, Hps. cbn [mbind outcome_bind bind py_floordiv py_iter].
    apply for_each_Forall2 in Hrows. rewrite Hrows. reflexivity.
  - symmetry. eapply Forall2_length. exact Hrows.
  - intros Hnn Hm. apply lines_concat; [discriminate|].
    constructor; [|exact Hnn].
    rewrite !has_newline_app, Hm.
    rewrite str_int_no_newline. reflexivity.
Qed.

(** X7. The match tool has no defaults: on a fetched match document it
    raises the [KeyError] of the first key that is missing among [info],
    [gameMode], [gameDuration] and [participants], and a [TypeError] when
    the duration is not a number. *)
Theorem match_detail_missing_keys (region base match_id : string)
  (d : list (string * json)) :
  REGIONAL_URLS !! region = Some base ->
  riot_req net (base +:+ "/lol/match/v5/matches/" +:+ match_id)
  = Returned (JDict d) ->
  d <> [] ->
  py_truthy (default JNull (dict_lookup d "error")) = false ->
  (dict_lookup d "info" = None ->
     get_match_by_id repr_str net region match_id
     = Raised (KeyError (JStr "info"))) /\
  (forall info,
     dict_lookup d "info" = Some (JDict info) ->
     (dict_lookup info "gameMode" = None ->
        get_match_by_id repr_str net region match_id
        = Raised (KeyError (JStr "gameMode"))) /\
     (forall mode,
        dict_lookup info "gameMode" = Some mode ->
        (dict_lookup info "gameDuration" = None ->
           get_match_by_id repr_str net region match_id
           = Raised (KeyError (JStr "gameDuration"))) /\
        (forall s,
           dict_lookup info "gameDuration" = Some (JStr s) ->
           get_match_by_id repr_str net region match_id = Raised TypeError) /\
        (forall dur,
           dict_lookup info "gameDuration" = Some (JInt dur) ->
           dict_lookup info "participants" = None ->
           get_match_by_id repr_str net region match_id
           = Raised (KeyError (JStr "participants"))))).
Proof.
  intros Hbase Hreq Hne Herr.
  rewrite (match_detail_enter region base match_id d Hbase Hreq Hne Herr).
  unfold py_getitem.
  split.
  - intros Hinfo. rewrite Hinfo. reflexivity.
  - intros info Hinfo. rewrite Hinfo. cbn [mbind outcome_bind bind].
    split.
    + intros Hm. rewrite Hm. reflexivity.
    + intros mode Hm. rewrite Hm. cbn [mbind outcome_bind bind].
      split; [|split].
      * intros Hd. rewrite Hd. reflexivity.
      * intros s0 Hd. rewrite Hd. reflexivity.
      * intros dur Hd Hp. rewrite Hd, Hp. reflexivity.
Qed.

(** X8. The first participant whose line cannot be rendered ends the match
    tool with its exception: the header and the lines of the participants
    before it are lost. *)
Theorem match_detail_participant_failure (region base match_id : string)
  (d info : list (string * json)) (mode : json) (dur : Z)
  (before after : list json) (p : json) (e : exn) :
  REGIONAL_URLS !! region = Some base ->
  riot_req net (base +:+ "/lol/match/v5/matches/" +:+ match_id)
  = Returned (JDict d) ->
  py_truthy (default JNull (dict_lookup d "error")) = false ->
  dict_lookup d "info" = Some (JDict info) ->
  dict_lookup info "gameMode" = Some mode ->
  dict_lookup info "gameDuration" = Some (JInt dur) ->
  dict_lookup info "participants" = Some (JList (before ++ p :: after)%list) ->
  Forall (fun q => exists row, match_participant_line repr_str q = Returned row)
         before ->
  match_participant_line repr_str p = Raised e ->
  get_match_by_id repr_str net region match_id = Raised e.
Proof.
  intros Hbase Hreq Herr Hinfo Hmode Hdur Hps Hbefore Hp.
  rewrite (match_detail_enter region base match_id d Hbase Hreq);
    [|destruct d; [discriminate|congruence]|exact Herr].
  unfold py_getitem. rewrite Hinfo. cbn [mbind outcome_bind bind].
  rewrite Hmode, Hdur, Hps. cbn [mbind outcome_bind bind py_floordiv py_iter].
  rewrite (for_each_raise _ before after p e Hbefore Hp). reflexivity.
Qed.

(** ** Newest matches: the slice and the join *)

Lemma strs_of_all_strings (l : list json) :
  Forall (fun v => is_jstr v = true) l ->
  exists ss, strs_of l = Returned ss /\ l = map JStr ss.
Proof.
  induction 1 as [|v l Hv _ (ss & Hss & ->)].
  - exists []. split; reflexivity.
  - destruct v; try discriminate.
    exists (s :: ss). simpl. rewrite Hss. split; reflexivity.
Qed.

Lemma strs_of_not_string (l : list json) :
  Exists (fun v => is_jstr v = false) l -> strs_of l = Raised TypeError.
Proof.
  induction 1 as [v l Hv|v l _ IH].
  - destruct v; try discriminate; reflexivity.
  - destruct v; try reflexivity. simpl. rewrite IH. reflexivity.
Qed.

Lemma newest_matches_enter (region uuid base : string) (numberOfGames : Z)
  (data : list json) :
  REGIONAL_URLS !! region = Some base ->
  riot_req net (base +:+ "/lol/match/v5/matches/by-puuid/" +:+ uuid
                     +:+ "/ids?count=" +:+ str_int numberOfGames)
  = Returned (JList data) ->
  data <> [] ->
  get_newest_matches net region uuid numberOfGames =
    (s ← py_join nl (py_slice_to data numberOfGames); Returned (JStr s)).
Proof.
  intros Hbase Hreq Hne.
  unfold get_newest_matches, url_index. rewrite Hbase.
  cbn [mbind outcome_bind bind]. rewrite Hreq.
  cbn [mbind outcome_bind bind is_error_dict].
  destruct data as [|m data']; [congruence|]. reflexivity.
Qed.

(** X9. The requested count is used as a Python slice bound: with a count
    of 0 a non-empty list of match ids gives the empty string, and with a
    negative count the tool returns all ids but the last [-count] ones (none
    when the list is no longer than that). *)
Theorem newest_matches_nonpositive_count (region uuid base : string)
  (numberOfGames : Z) (ids : list string) :
  numberOfGames <= 0 ->
  REGIONAL_URLS !! region = Some base ->
  riot_req net (base +:+ "/lol/match/v5/matches/by-puuid/" +:+ uuid
                     +:+ "/ids?count=" +:+ str_int numberOfGames)
  = Returned (JList (map JStr ids)) ->
  ids <> [] ->
  (numberOfGames = 0 ->
     get_newest_matches net region uuid numberOfGames = Returned (JStr "")) /\
  (numberOfGames < 0 ->
     get_newest_matches net region uuid numberOfGames
     = Returned (JStr (String.concat nl
                         (firstn (length ids - Z.to_nat (- numberOfGames)) ids)))).
Proof.
  intros Hn Hbase Hreq Hne.
  assert (Hne' : map JStr ids <> []) by (destruct ids; [congruence|discriminate]).
  rewrite (newest_matches_enter region uuid base numberOfGames _ Hbase Hreq Hne').
  split.
  - intros ->. reflexivity.
  - intros Hneg.
    assert (Hslice : py_slice_to (map JStr ids) numberOfGames
              = map JStr (firstn (length ids - Z.to_nat (- numberOfGames)) ids)).
    { unfold py_slice_to. rewrite length_map, <- firstn_map.
      replace (0 <=? numberOfGames) with false by lia.
      f_equal. lia. }
    rewrite Hslice. unfold py_join. rewrite strs_of_strings. reflexivity.
Qed.

(** X10. The ids are joined as strings: the newest-matches tool returns a
    string exactly when each of the items it keeps is a string, and raises
    [TypeError] when one of them is not; the items after the requested
    count are not looked at. *)
Theorem newest_matches_item_types (region uuid base : string)
  (numberOfGames : Z) (data : list json) :
  REGIONAL_URLS !! region = Some base ->
  riot_req net (base +:+ "/lol/match/v5/matches/by-puuid/" +:+ uuid
                     +:+ "/ids?count=" +:+ str_int numberOfGames)
  = Returned (JList data) ->
  data <> [] ->
  (Forall (fun v => is_jstr v = true) (py_slice_to data numberOfGames) ->
     exists ids,
       py_slice_to data numberOfGames = map JStr ids /\
       get_newest_matches net region uuid numberOfGames
       = Returned (JStr (String.concat nl ids))) /\
  (Exists (fun v => is_jstr v = false) (py_slice_to data numberOfGames) ->
     get_newest_matches net region uuid numberOfGames = Raised TypeError).
Proof.
  intros Hbase Hreq Hne.
  rewrite (newest_matches_enter region uuid base numberOfGames _ Hbase Hreq Hne).
  unfold py_join. split.
  - intros Hall. destruct (strs_of_all_strings _ Hall) as (ids & Hids & Heq).
    exists ids. split; [exact Heq|]. rewrite Hids. reflexivity.
  - intros Hex. rewrite (strs_of_not_string _ Hex). reflexivity.
Qed.

(** ** Champion masteries: what is looked at *)

Lemma masteries_enter (uuid region base : string) (data : list json) :
  PLATFORM_URLS !! region = Some base ->
  riot_req net (base +:+ "/lol/champion-mastery/v4/champion-masteries/by-puuid/"
                     +:+ uuid) = Returned (JList data) ->
  data <> [] ->
  get_champion_masteries repr_str net uuid region =
    (results ← for_each (mastery_line repr_str) (firstn 10 data);
     Returned (JStr (String.concat nl results))).
Proof.
  intros Hbase Hreq Hne.
  unfold get_champion_masteries, url_index. rewrite Hbase.
  cbn [mbind outcome_bind bind]. rewrite Hreq.
  cbn [mbind outcome_bind bind is_error_dict].
  destruct data as [|m data']; [congruence|]. reflexivity.
Qed.

(** X11. The first record among the first ten that cannot be rendered, for
    a missing field or for not being a dict, ends the masteries tool with
    its exception, a [KeyError] naming the first missing field of the
    record; the lines of the records before it are lost. *)
Theorem masteries_record_failure (uuid region base : string)
  (before after : list json) (mastery : json) :
  PLATFORM_URLS !! region = Some base ->
  riot_req net (base +:+ "/lol/champion-mastery/v4/champion-masteries/by-puuid/"
                     +:+ uuid)
  = Returned (JList (before ++ mastery :: after)%list) ->
  (length before < 10)%nat ->
  Forall (fun m => exists row, mastery_line repr_str m = Returned row) before ->
  (forall e,
     mastery_line repr_str mastery = Raised e ->
     get_champion_masteries repr_str net uuid region = Raised e) /\
  (forall d,
     mastery = JDict d ->
     (dict_lookup d "championId" = None ->
        mastery_line repr_str mastery = Raised (KeyError (JStr "championId"))) /\
     (forall i,
        dict_lookup d "championId" = Some i ->
        dict_lookup d "championLevel" = None ->
        mastery_line repr_str mastery = Raised (KeyError (JStr "championLevel"))) /\
     (forall i l,
        dict_lookup d "championId" = Some i ->
        dict_lookup d "championLevel" = Some l ->
        dict_lookup d "championPoints" = None ->
        mastery_line repr_str mastery
        = Raised (KeyError (JStr "championPoints")))) /\
  ((forall d, mastery <> JDict d) ->
     mastery_line repr_str mastery = Raised TypeError).
Proof.
  intros Hbase Hreq Hlen Hbefore.
  split; [|split].
  - intros e He.
    rewrite (masteries_enter uuid region base _ Hbase Hreq)
      by (destruct before; discriminate).
    assert (Hcut : firstn 10 (before ++ mastery :: after)%list
              = (before ++ mastery :: firstn (10 - length before - 1) after)%list).
    { rewrite firstn_app.
      rewrite firstn_all2 by lia. f_equal.
      destruct (10 - length before)%nat as [|k] eqn:E; [lia|].
      simpl. rewrite Nat.sub_0_r. reflexivity. }
    rewrite Hcut, (for_each_raise _ before _ mastery e Hbefore He). reflexivity.
  - intros d ->. unfold mastery_line, py_getitem.
    split; [|split].
    + intros Hi. rewrite Hi. reflexivity.
    + intros i Hi Hl. rewrite Hi, Hl. reflexivity.
    + intros i l Hi Hl Hp. rewrite Hi, Hl, Hp. reflexivity.
  - intros Hnd. destruct mastery as [| | | | |d]; try reflexivity.
    exfalso. exact (Hnd d eq_refl).
Qed.

(** ** The participant table *)

Lemma add_participant_inv (m m' : gmap pykey participant) (p : json) :
  add_participant repr_str m p = Returned m' ->
  exists d pid k,
    p = JDict d /\ dict_lookup d "participantId" = Some pid /\
    hash_key pid = Some k /\ participant_key p = Some k /\
    m' = <[ k := participant_entry repr_str d pid ]> m.
Proof.
  unfold add_participant, py_getitem, py_get, participant_key.
  destruct p as [| | | | |d]; try discriminate.
  destruct (dict_lookup d "participantId") as [pid|] eqn:Hpid; [|discriminate].
  cbn [mbind outcome_bind bind].
  destruct (hash_key pid) as [k|] eqn:Hk; [|discriminate].
  intros [= <-]. exists d, pid, k. repeat split; assumption || reflexivity.
Qed.

Lemma build_participant_map_app (m : gmap pykey participant)
  (before after : list json) :
  build_participant_map repr_str m (before ++ after)%list =
    (m1 ← build_participant_map repr_str m before;
     build_participant_map repr_str m1 after).
Proof.
  revert m. induction before as [|p before IH]; intros m; simpl; [reflexivity|].
  destruct (add_participant repr_str m p) as [m1|e]; [|reflexivity].
  cbn [mbind outcome_bind bind]. apply IH.
Qed.

Lemma build_participant_map_other (m pm : gmap pykey participant)
  (ps : list json) (k : pykey) :
  build_participant_map repr_str m ps = Returned pm ->
  Forall (fun q => participant_key q <> Some k) ps ->
  pm !! k = m !! k.
Proof.
  revert m. induction ps as [|p ps IH]; intros m; simpl.
  - intros [= <-] _. reflexivity.
  - intros H Hall. inversion Hall as [|? ? Hp Hps]; subst.
    unbind H.
    apply add_participant_inv in Ha as (d & pid & k' & -> & _ & _ & Hk' & ->).
    rewrite (IH _ H Hps). apply lookup_insert_ne. congruence.
Qed.

(** X12. Insert and lookup on the participant table: once the table is
    built, an id is labelled from the last participant of the list that
    carries it, as [<name>(<champion>)], where the name is the riot id game
    name if it is truthy, else the summoner name if it is truthy, else
    [Player <id>], and the champion is the champion name, [Unknown] when the
    key is absent. *)
Theorem participant_label_round_trip (m pm : gmap pykey participant)
  (before after : list json) (d : list (string * json)) (pid pid' : json)
  (k : pykey) :
  build_participant_map repr_str m (before ++ JDict d :: after)%list
  = Returned pm ->
  dict_lookup d "participantId" = Some pid ->
  hash_key pid = Some k ->
  Forall (fun q => participant_key q <> Some k) after ->
  hash_key pid' = Some k ->
  get_label repr_str pm pid'
  = Returned (py_str repr_str (name (participant_entry repr_str d pid)) +:+ "("
                +:+ py_str repr_str (champion (participant_entry repr_str d pid))
                +:+ ")") /\
  name (participant_entry repr_str d pid)
  = (let riot := default JNull (dict_lookup d "riotIdGameName") in
     let summoner := default JNull (dict_lookup d "summonerName") in
     if py_truthy riot then riot
     else if py_truthy summoner then summoner
     else JStr ("Player " +:+ py_str repr_str pid)) /\
  champion (participant_entry repr_str d pid)
  = default (JStr "Unknown") (dict_lookup d "championName").
Proof.
  intros Hbuild Hpid Hk Hafter Hk'.
  split; [|split; reflexivity].
  rewrite build_participant_map_app in Hbuild.
  unbind Hbuild. simpl in Hbuild. unbind Hbuild.
  apply add_participant_inv in Ha0 as (d0 & pid0 & k0 & E & Hpid0 & Hk0 & _ & ->).
  injection E as <-. rewrite Hpid in Hpid0. injection Hpid0 as <-.
  rewrite Hk in Hk0. injection Hk0 as <-.
  pose proof (build_participant_map_other _ _ _ k Hbuild Hafter) as Hlook.
  rewrite lookup_insert_eq in Hlook.
  unfold get_label. rewrite Hk', Hlook. reflexivity.
Qed.

(** X13. An id that no participant of the list carries is labelled [?(?)]
    by the table built from the list. *)
Theorem participant_label_unknown (pm : gmap pykey participant)
  (ps : list json) (pid : json) (k : pykey) :
  build_participant_map repr_str ∅ ps = Returned pm ->
  hash_key pid = Some k ->
  Forall (fun q => participant_key q <> Some k) ps ->
  get_label repr_str pm pid = Returned "?(?)".
Proof.
  intros Hbuild Hk Hall.
  pose proof (build_participant_map_other _ _ _ k Hbuild Hall) as Hlook.
  rewrite lookup_empty in Hlook.
  unfold get_label. rewrite Hk, Hlook. reflexivity.
Qed.

(** X14. The table is built or the loop raises: a participant that is not a
    dict raises [TypeError], one without [participantId] raises the
    [KeyError] of that key, one whose id is a list or a dict raises
    [TypeError]; the first such participant ends the loop, whatever comes
    after it. *)
Theorem participant_table_failure (m m1 : gmap pykey participant)
  (before after : list json) (p : json) :
  build_participant_map repr_str m before = Returned m1 ->
  ((forall d, p <> JDict d) ->
     build_participant_map repr_str m (before ++ p :: after)%list
     = Raised TypeError) /\
  (forall d,
     p = JDict d ->
     (dict_lookup d "participantId" = None ->
        build_participant_map repr_str m (before ++ p :: after)%list
        = Raised (KeyError (JStr "participantId"))) /\
     (forall pid,
        dict_lookup d "participantId" = Some pid ->
        hash_key pid = None ->
        build_participant_map repr_str m (before ++ p :: after)%list
        = Raised TypeError)).
Proof.
  intros Hbefore. rewrite build_participant_map_app, Hbefore.
  cbn [mbind outcome_bind bind build_participant_map].
  split.
  - intros Hnd. destruct p as [| | | | |d]; try reflexivity.
    exfalso. exact (Hnd d eq_refl).
  - intros d ->. unfold add_participant, py_getitem, py_get. split.
    + intros Hp. rewrite Hp. reflexivity.
    + intros pid Hp Hk. rewrite Hp. cbn [mbind outcome_bind bind].
      rewrite Hk. reflexivity.
Qed.

(** ** Events and frames of the timeline *)

Lemma unrecognized_event_no_line (participant_map : gmap pykey participant)
  (minutes seconds : Z) (d : list (string * json)) :
  recognized (JDict d) = false ->
  timeline_event repr_str participant_map minutes seconds (JDict d) = Returned [].
Proof.
  unfold recognized, event_type, timeline_event, py_get.
  cbn [mbind outcome_bind bind].
  set (ty := default JNull (dict_lookup d "type")).
  intros H.
  repeat (apply orb_false_iff in H as [H ?]).
  repeat match goal with E : is_str _ _ = false |- _ => rewrite E; clear E end.
  reflexivity.
Qed.

(** X15. An event dict of a type that the summarizer has no branch for, or
    of no type at all, gives no line and changes nothing around it: the
    events of the frame are rendered as if it were not in the list. *)
Theorem unrecognized_event_dropped (participant_map : gmap pykey participant)
  (minutes seconds : Z) (before after : list json) (d : list (string * json)) :
  recognized (JDict d) = false ->
  timeline_events repr_str participant_map minutes seconds
    (before ++ JDict d :: after)%list
  = timeline_events repr_str participant_map minutes seconds
      (before ++ after)%list.
Proof.
  intros Hun. induction before as [|ev before IH]; simpl.
  - rewrite (unrecognized_event_no_line _ _ _ _ Hun).
    cbn [mbind outcome_bind bind].
    destruct (timeline_events repr_str participant_map minutes seconds after);
      reflexivity.
  - rewrite IH. reflexivity.
Qed.

Lemma slot_map_lookup (z : Z) :
  default (str_int z) (slot_map !! KInt z) =
    if z =? 1 then "Q" else if z =? 2 then "W"
    else if z =? 3 then "E" else if z =? 4 then "R" else str_int z.
Proof.
  unfold slot_map.
  destruct (z =? 1) eqn:E1; [apply Z.eqb_eq in E1 as ->; reflexivity|].
  rewrite lookup_insert_ne by (apply Z.eqb_neq in E1; congruence).
  destruct (z =? 2) eqn:E2; [apply Z.eqb_eq in E2 as ->; reflexivity|].
  rewrite lookup_insert_ne by (apply Z.eqb_neq in E2; congruence).
  destruct (z =? 3) eqn:E3; [apply Z.eqb_eq in E3 as ->; reflexivity|].
  rewrite lookup_insert_ne by (apply Z.eqb_neq in E3; congruence).
  destruct (z =? 4) eqn:E4; [apply Z.eqb_eq in E4 as ->; reflexivity|].
  rewrite lookup_singleton_ne by (apply Z.eqb_neq in E4; congruence).
  reflexivity.
Qed.

(** X16. A skill level-up with an integer slot prints the letter Q, W, E
    or R for the slots 1 to 4 and the number itself for any other slot, 0
    when the event has no slot. *)
Theorem skill_level_up_line (participant_map : gmap pykey participant)
  (minutes seconds : Z) (d : list (string * json)) (z : Z) (k : pykey) :
  dict_lookup d "type" = Some (JStr "SKILL_LEVEL_UP") ->
  default (JInt 0) (dict_lookup d "skillSlot") = JInt z ->
  hash_key (default (JInt 0) (dict_lookup d "participantId")) = Some k ->
  timeline_event repr_str participant_map minutes seconds (JDict d)
  = Returned [stamp minutes seconds +:+ "SKILL - Player "
                +:+ match participant_map !! k with
                    | Some p => py_str repr_str (name p) +:+ "("
                                  +:+ py_str repr_str (champion p) +:+ ")"
                    | None => "?(?)"
                    end
                +:+ " leveled up "
                +:+ (if z =? 1 then "Q" else if z =? 2 then "W"
                     else if z =? 3 then "E" else if z =? 4 then "R"
                     else str_int z)].
Proof.
  intros Hty Hslot Hk.
  unfold timeline_event, py_get. rewrite Hty.
  cbn [mbind outcome_bind bind default from_option id is_str String.eqb
       Ascii.eqb Bool.eqb].
  rewrite Hslot. unfold map_get. cbn [hash_key mbind outcome_bind bind py_str py_repr].
  rewrite (get_label_hashable repr_str participant_map _ k Hk).
  cbn [mbind outcome_bind bind].
  rewrite slot_map_lookup. reflexivity.
Qed.

Lemma timeline_events_count (participant_map : gmap pykey participant)
  (minutes seconds : Z) (events : list json) (rows : list string) :
  timeline_events repr_str participant_map minutes seconds events = Returned rows ->
  length rows = length (List.filter recognized events).
Proof.
  intros H. apply timeline_events_split in H as (per_event & H2 & ->).
  induction H2 as [|ev r evs rs Hr _ IH]; [reflexivity|].
  apply timeline_event_shape in Hr as [_ Hr].
  simpl. rewrite length_app, IH, Hr.
  destruct (recognized ev); reflexivity.
Qed.

Lemma timeline_frame_count (participant_map : gmap pykey participant)
  (frame : json) (rows : list string) :
  timeline_frame repr_str participant_map frame = Returned rows ->
  length rows = length (List.filter recognized (frame_events frame)).
Proof.
  destruct frame as [| | | | |d]; try discriminate.
  unfold timeline_frame, frame_events, py_get.
  cbn [mbind outcome_bind bind].
  intros H. unbind H.
  rewrite Ha0. eapply timeline_events_count. exact H.
Qed.

Lemma timeline_frames_split (participant_map : gmap pykey participant)
  (frames : list json) (rows : list string) :
  timeline_frames repr_str participant_map frames = Returned rows <->
  exists per_frame,
    Forall2 (fun frame r =>
               timeline_frame repr_str participant_map frame = Returned r)
            frames per_frame /\
    rows = List.concat per_frame.
Proof.
  revert rows. induction frames as [|frame rest IH]; intros rows; simpl.
  - split.
    + intros [= <-]. exists []. split; [constructor|reflexivity].
    + intros (per_frame & H2 & ->). inversion H2; subst. reflexivity.
  - split.
    + intros H. unbind H. injection H as <-.
      apply IH in Ha0 as (per_frame & H2 & ->).
      exists (a :: per_frame). split; [constructor; assumption|reflexivity].
    + intros (per_frame & H2 & ->).
      inversion H2 as [|? r ? rs Hr Hrs]; subst.
      rewrite Hr. cbn [mbind outcome_bind bind].
      assert (Hrest : timeline_frames repr_str participant_map rest
                      = Returned (List.concat rs)) by (apply IH; eauto).
      rewrite Hrest. reflexivity.
Qed.

(** X17. The summary of a timeline document is the header
    [Match: <id> - Frame interval: <frameInterval // 1000>s] followed by the
    lines of the frames in the order of the frames, each frame giving its
    own lines in the order of its events; there are as many event lines as
    recognized events in all the frames. *)
Theorem timeline_summary_structure (region base match_id : string)
  (d info : list (string * json)) (ps frames : list json) (interval : Z)
  (participant_map : gmap pykey participant) (rows : list string) :
  REGIONAL_URLS !! region = Some base ->
  riot_req net (base +:+ "/lol/match/v5/matches/" +:+ match_id +:+ "/timeline")
  = Returned (JDict d) ->
  py_truthy (default JNull (dict_lookup d "error")) = false ->
  dict_lookup d "info" = Some (JDict info) ->
  dict_lookup info "participants" = Some (JList ps) ->
  build_participant_map repr_str ∅ ps = Returned participant_map ->
  default (JInt 0) (dict_lookup info "frameInterval") = JInt interval ->
  default (JList []) (dict_lookup info "frames") = JList frames ->
  timeline_frames repr_str participant_map frames = Returned rows ->
  get_match_timeline_by_id repr_str net region match_id
  = Returned (JStr (String.concat nl
                      (("Match: " +:+ match_id +:+ " - Frame interval: "
                                  +:+ str_int (interval / 1000) +:+ "s") :: rows))) /\
  (exists per_frame,
     Forall2 (fun frame r =>
                timeline_frame repr_str participant_map frame = Returned r /\
                length r = length (List.filter recognized (frame_events frame)))
             frames per_frame /\
     rows = List.concat per_frame) /\
  length rows = length (List.filter recognized (flat_map frame_events frames)).
Proof.
  intros Hbase Hreq Herr Hinfo Hps Hbuild Hint Hframes Hrows.
  split; [|split].
  - unfold get_match_timeline_by_id, url_index. rewrite Hbase.
    cbn [mbind outcome_bind bind]. rewrite Hreq.
    cbn [mbind outcome_bind bind].
    rewrite (truthy_dict_with d "info" _ Hinfo).
    unfold py_get. cbn [mbind outcome_bind bind negb].
    rewrite Herr. cbn [py_truthy].
    unfold timeline_summary, py_get. rewrite Hinfo.
    cbn [mbind outcome_bind bind default from_option id].
    change (from_option id (JList []) (dict_lookup info "frames"))
      with (default (JList []) (dict_lookup info "frames")).
    change (from_option id (JInt 0) (dict_lookup info "frameInterval"))
      with (default (JInt 0) (dict_lookup info "frameInterval")).
    rewrite Hframes, Hint, Hps.
    cbn [mbind outcome_bind bind default from_option id py_iter py_floordiv].
    rewrite Hbuild. cbn [mbind outcome_bind bind]. rewrite Hrows. reflexivity.
  - apply timeline_frames_split in Hrows as (per_frame & H2 & ->).
    exists per_frame. split; [|reflexivity].
    clear - H2.
    induction H2 as [|f r fs rs Hr _ IH]; [constructor|].
    constructor; [|exact IH].
    split; [exact Hr|]. exact (timeline_frame_count _ _ _ Hr).
  - apply timeline_frames_split in Hrows as (per_frame & H2 & ->).
    clear - H2.
    induction H2 as [|f r fs rs Hr _ IH]; [reflexivity|].
    simpl. rewrite length_app, List.filter_app, length_app, IH.
    f_equal. exact (timeline_frame_count _ _ _ Hr).
Qed.

End Tools.

(** X18. Only the first ten records count: two fetched lists that are not
    empty and agree on their first ten records give the same answer of the
    masteries tool, an exception included. *)
Theorem masteries_first_ten_only (repr_str : string -> string)
  (net net' : string -> http_outcome) (uuid region base : string)
  (data data' : list json) :
  PLATFORM_URLS !! region = Some base ->
  riot_req net (base +:+ "/lol/champion-mastery/v4/champion-masteries/by-puuid/"
                     +:+ uuid) = Returned (JList data) ->
  riot_req net' (base +:+ "/lol/champion-mastery/v4/champion-masteries/by-puuid/"
                      +:+ uuid) = Returned (JList data') ->
  data <> [] -> data' <> [] ->
  firstn 10 data = firstn 10 data' ->
  get_champion_masteries repr_str net uuid region
  = get_champion_masteries repr_str net' uuid region.
Proof.
  intros Hbase Hreq Hreq' Hne Hne' Hten.
  rewrite (masteries_enter repr_str net uuid region base data Hbase Hreq Hne).
  rewrite (masteries_enter repr_str net' uuid region base data' Hbase Hreq' Hne').
  rewrite Hten. reflexivity.
Qed.

(** * The further properties on the sample data *)

Lemma falsy_body_messages_witness :
  get_player_id quote (net_ok (JDict [])) "na" "Ann" "NA1"
  = Returned (JStr "Found no account with that name in the server") /\
  get_champion_masteries quote (net_ok JNull) "p-123" "na"
  = Returned (JStr "Account does not exist on region").
Proof.
  split.
  - apply (proj1 (falsy_body_messages quote (net_ok (JDict [])) "na"
                    "https://americas.api.riotgames.com"
                    "https://americas.api.riotgames.com/riot/account/v1/accounts/by-riot-id/Ann/NA1"
                    (JDict []) eq_refl eq_refl)); reflexivity.
  - apply (proj1 (proj2 (falsy_body_messages quote (net_ok JNull) "na"
                    "https://na1.api.riotgames.com"
                    "https://na1.api.riotgames.com/lol/champion-mastery/v4/champion-masteries/by-puuid/p-123"
                    JNull eq_refl eq_refl))); reflexivity.
Defined.

Lemma error_shaped_body_witness :
  get_match_by_id quote
    (net_ok (JDict [("error", JInt 1); ("message", JList [JInt 7])]))
    "kr" "KR_1" = Returned (JList [JInt 7]) /\
  get_match_by_id quote (net_ok (JDict [("error", JStr "boom")])) "kr" "KR_1"
  = Raised (KeyError (JStr "message")).
Proof.
  split.
  - destruct (error_shaped_body quote
                (net_ok (JDict [("error", JInt 1); ("message", JList [JInt 7])]))
                "kr" "https://asia.api.riotgames.com"
                "https://asia.api.riotgames.com/lol/match/v5/matches/KR_1"
                [("error", JInt 1); ("message", JList [JInt 7])]
                eq_refl eq_refl) as (_ & _ & _ & H & _ & Hm & _).
    rewrite (H "KR_1" eq_refl eq_refl). apply Hm. reflexivity.
  - destruct (error_shaped_body quote
                (net_ok (JDict [("error", JStr "boom")]))
                "kr" "https://asia.api.riotgames.com"
                "https://asia.api.riotgames.com/lol/match/v5/matches/KR_1"
                [("error", JStr "boom")]
                eq_refl eq_refl) as (_ & _ & _ & H & _ & _ & Hm).
    rewrite (H "KR_1" eq_refl eq_refl). apply Hm. reflexivity.
Defined.

Lemma non_dict_body_raises_witness :
  get_player_id quote (net_ok (JList [JInt 1])) "jp" "Ann" "JP1"
  = Raised AttributeError.
Proof.
  apply (proj1 (non_dict_body_raises quote (net_ok (JList [JInt 1])) "jp"
                  "https://asia.api.riotgames.com"
                  "https://asia.api.riotgames.com/riot/account/v1/accounts/by-riot-id/Ann/JP1"
                  (JList [JInt 1]) eq_refl eq_refl
                  ltac:(discriminate) eq_refl)).
  reflexivity.
Defined.

Lemma player_id_render_witness :
  get_player_id quote (net_ok sample_account) "euw" "Ann" "EUW"
  = Returned (JStr "Name:Ann#EUW PUUID: p-123") /\
  get_player_id quote (net_ok (JDict [("puuid", JStr "p-123")])) "euw" "Ann" "EUW"
  = Raised (KeyError (JStr "gameName")).
Proof.
  split.
  - apply (proj1 (player_id_render quote (net_ok sample_account) "euw"
                    "https://europe.api.riotgames.com" "Ann" "EUW" _
                    eq_refl eq_refl ltac:(discriminate) eq_refl)
                 (JStr "Ann") (JStr "EUW") (JStr "p-123"));
      reflexivity.
  - apply (proj1 (proj2 (player_id_render quote
                    (net_ok (JDict [("puuid", JStr "p-123")])) "euw"
                    "https://europe.api.riotgames.com" "Ann" "EUW" _
                    eq_refl eq_refl ltac:(discriminate) eq_refl))).
    reflexivity.
Defined.

Lemma match_detail_render_witness :
  get_match_by_id quote (net_ok sample_match) "na" "NA1_1"
  = Returned (JStr (String.concat nl
      [ "Mode: CLASSIC - Duration: 25min";
        "Ann - Ahri - 7/2/9 time spent dead61 - Win -1500";
        "Bob - Garen - 1/8/3 time spent dead240 - Loss -1500" ])).
Proof.
  apply (match_detail_render quote (net_ok sample_match) "na"
           "https://americas.api.riotgames.com" "NA1_1" _ _ (JStr "CLASSIC") 1500 _
           [ "Ann - Ahri - 7/2/9 time spent dead61 - Win -1500";
             "Bob - Garen - 1/8/3 time spent dead240 - Loss -1500" ]
           eq_refl eq_refl eq_refl eq_refl eq_refl eq_refl eq_refl).
  repeat constructor.
Defined.

Lemma match_detail_missing_keys_witness :
  get_match_by_id quote (net_ok (JDict [("metadata", JNull)])) "na" "NA1_1"
  = Raised (KeyError (JStr "info")).
Proof.
  apply (proj1 (match_detail_missing_keys quote
                  (net_ok (JDict [("metadata", JNull)])) "na"
                  "https://americas.api.riotgames.com" "NA1_1" _
                  eq_refl eq_refl ltac:(discriminate) eq_refl)).
  reflexivity.
Defined.

Lemma match_detail_participant_failure_witness :
  get_match_by_id quote
    (net_ok (JDict [("info", JDict [
       ("gameMode", JStr "ARAM"); ("gameDuration", JInt 900);
       ("participants", JList [JDict [("riotIdGameName", JStr "Ann")]])])]))
    "na" "NA1_1"
  = Raised (KeyError (JStr "championName")).
Proof.
  apply (match_detail_participant_failure quote
           (net_ok (JDict [("info", JDict [
              ("gameMode", JStr "ARAM"); ("gameDuration", JInt 900);
              ("participants", JList [JDict [("riotIdGameName", JStr "Ann")]])])]))
           "na" "https://americas.api.riotgames.com" "NA1_1" _ _
           (JStr "ARAM") 900 [] [] (JDict [("riotIdGameName", JStr "Ann")])
           (KeyError (JStr "championName"))
           eq_refl eq_refl eq_refl eq_refl eq_refl eq_refl eq_refl);
    [constructor|reflexivity].
Defined.

Lemma newest_matches_nonpositive_count_witness :
  get_newest_matches (net_ok (JList [JStr "NA1_3"; JStr "NA1_2"; JStr "NA1_1"]))
    "na" "p-123" (-1)
  = Returned (JStr (String.concat nl ["NA1_3"; "NA1_2"])) /\
  get_newest_matches (net_ok (JList [JStr "NA1_3"; JStr "NA1_2"; JStr "NA1_1"]))
    "na" "p-123" 0
  = Returned (JStr "").
Proof.
  split.
  - apply (proj2 (newest_matches_nonpositive_count
                    (net_ok (JList [JStr "NA1_3"; JStr "NA1_2"; JStr "NA1_1"]))
                    "na" "p-123" "https://americas.api.riotgames.com" (-1)
                    ["NA1_3"; "NA1_2"; "NA1_1"]
                    ltac:(lia) eq_refl eq_refl ltac:(discriminate))).
    lia.
  - apply (proj1 (newest_matches_nonpositive_count
                    (net_ok (JList [JStr "NA1_3"; JStr "NA1_2"; JStr "NA1_1"]))
                    "na" "p-123" "https://americas.api.riotgames.com" 0
                    ["NA1_3"; "NA1_2"; "NA1_1"]
                    ltac:(lia) eq_refl eq_refl ltac:(discriminate))).
    reflexivity.
Defined.

Lemma newest_matches_item_types_witness :
  get_newest_matches (net_ok (JList [JStr "NA1_3"; JInt 2])) "na" "p-123" 5
  = Raised TypeError /\
  (exists ids,
     py_slice_to [JStr "NA1_3"; JInt 2] 1 = map JStr ids /\
     get_newest_matches (net_ok (JList [JStr "NA1_3"; JInt 2])) "na" "p-123" 1
     = Returned (JStr (String.concat nl ids))).
Proof.
  split.
  - apply (proj2 (newest_matches_item_types
                    (net_ok (JList [JStr "NA1_3"; JInt 2]))
                    "na" "p-123" "https://americas.api.riotgames.com" 5
                    [JStr "NA1_3"; JInt 2]
                    eq_refl eq_refl ltac:(discriminate))).
    apply Exists_cons_tl, Exists_cons_hd. reflexivity.
  - apply (proj1 (newest_matches_item_types
                    (net_ok (JList [JStr "NA1_3"; JInt 2]))
                    "na" "p-123" "https://americas.api.riotgames.com" 1
                    [JStr "NA1_3"; JInt 2]
                    eq_refl eq_refl ltac:(discriminate))).
    repeat constructor.
Defined.

Lemma masteries_record_failure_witness :
  get_champion_masteries quote
    (net_ok (JList [ JDict [("championId", JInt 103); ("championLevel", JInt 7);
                            ("championPoints", JInt 120034)];
                     JDict [("championId", JInt 22)] ]))
    "p-123" "kr"
  = Raised (KeyError (JStr "championLevel")).
Proof.
  apply (proj1 (masteries_record_failure quote
                  (net_ok (JList [ JDict [("championId", JInt 103);
                                          ("championLevel", JInt 7);
                                          ("championPoints", JInt 120034)];
                                   JDict [("championId", JInt 22)] ]))
                  "p-123" "kr" "https://kr.api.riotgames.com"
                  [ JDict [("championId", JInt 103); ("championLevel", JInt 7);
                           ("championPoints", JInt 120034)] ]
                  [] (JDict [("championId", JInt 22)])
                  eq_refl eq_refl ltac:(simpl; lia)
                  ltac:(repeat constructor; eexists; reflexivity))).
  reflexivity.
Defined.

Lemma masteries_first_ten_only_witness :
  get_champion_masteries quote
    (net_ok (JList (List.repeat (JDict [("championId", JInt 1); ("championLevel", JInt 2);
                                        ("championPoints", JInt 3)]) 10
                    ++ [JNull])%list))
    "p-123" "kr"
  = get_champion_masteries quote
      (net_ok (JList (List.repeat (JDict [("championId", JInt 1); ("championLevel", JInt 2);
                                          ("championPoints", JInt 3)]) 10
                      ++ [JStr "x"; JInt 4])%list))
      "p-123" "kr".
Proof.
  match goal with
  | |- get_champion_masteries _ (net_ok (JList ?l1)) _ _
       = get_champion_masteries _ (net_ok (JList ?l2)) _ _ =>
      apply (masteries_first_ten_only quote (net_ok (JList l1)) (net_ok (JList l2))
               "p-123" "kr" "https://kr.api.riotgames.com" l1 l2
               eq_refl eq_refl eq_refl);
        [discriminate|discriminate|reflexivity]
  end.
Defined.

Lemma participant_label_round_trip_witness :
  get_label quote sample_table (JBool true) = Returned "Ann(Ahri)" /\
  get_label quote sample_table (JInt 2) = Returned "Bob(Unknown)".
Proof.
  assert (Hbuild : build_participant_map quote ∅
            ([ JDict [("participantId", JInt 1); ("riotIdGameName", JStr "Ann");
                      ("championName", JStr "Ahri")] ]
             ++ JDict [("participantId", JInt 2); ("summonerName", JStr "Bob")]
             :: [])%list = Returned sample_table) by (vm_compute; reflexivity).
  assert (Hbuild1 : build_participant_map quote ∅
            ([] ++ JDict [("participantId", JInt 1); ("riotIdGameName", JStr "Ann");
                          ("championName", JStr "Ahri")]
                :: [ JDict [("participantId", JInt 2);
                            ("summonerName", JStr "Bob")] ])%list
            = Returned sample_table) by (vm_compute; reflexivity).
  split.
  - apply (proj1 (participant_label_round_trip quote ∅ sample_table _ _ _
                    (JInt 1) (JBool true) (KInt 1) Hbuild1 eq_refl eq_refl
                    ltac:(repeat constructor; discriminate) eq_refl)).
  - apply (proj1 (participant_label_round_trip quote ∅ sample_table _ _ _
                    (JInt 2) (JInt 2) (KInt 2) Hbuild eq_refl eq_refl
                    ltac:(constructor) eq_refl)).
Defined.

Lemma participant_label_unknown_witness :
  get_label quote sample_table (JInt 9) = Returned "?(?)".
Proof.
  apply (participant_label_unknown quote sample_table
           [ JDict [("participantId", JInt 1); ("riotIdGameName", JStr "Ann");
                    ("championName", JStr "Ahri")];
             JDict [("participantId", JInt 2); ("summonerName", JStr "Bob")] ]
           (JInt 9) (KInt 9));
    [vm_compute; reflexivity|reflexivity|repeat constructor; discriminate].
Defined.

Lemma participant_table_failure_witness :
  build_participant_map quote ∅
    [ JDict [("participantId", JInt 1)]; JDict [("puuid", JStr "p-2")];
      JDict [("participantId", JInt 3)] ]
  = Raised (KeyError (JStr "participantId")).
Proof.
  destruct (participant_table_failure quote ∅
              (<[ KInt 1 := participant_entry quote [("participantId", JInt 1)] (JInt 1) ]> ∅)
              [ JDict [("participantId", JInt 1)] ]
              [ JDict [("participantId", JInt 3)] ]
              (JDict [("puuid", JStr "p-2")]) eq_refl) as (_ & H).
  destruct (H _ eq_refl) as (Hk & _). apply Hk. reflexivity.
Defined.

Lemma unrecognized_event_dropped_witness :
  timeline_events quote sample_table 2 5 sample_events
  = timeline_events quote sample_table 2 5
      [ JDict [("type", JStr "CHAMPION_KILL"); ("killerId", JInt 1); ("victimId", JInt 2);
               ("assistingParticipantIds", JList [JInt 3; JInt 4])];
        JDict [("type", JStr "BUILDING_KILL"); ("teamId", JInt 100);
               ("buildingType", JStr "TOWER_BUILDING"); ("laneType", JStr "MID_LANE")];
        JDict [("type", JStr "SKILL_LEVEL_UP"); ("skillSlot", JInt 7)];
        JDict [("type", JStr "ITEM_PURCHASED"); ("participantId", JInt 2);
               ("itemId", JInt 1055)] ].
Proof.
  apply (unrecognized_event_dropped quote sample_table 2 5
           [ JDict [("type", JStr "CHAMPION_KILL"); ("killerId", JInt 1);
                    ("victimId", JInt 2);
                    ("assistingParticipantIds", JList [JInt 3; JInt 4])] ]
           _ [("type", JStr "WARD_PLACED")]).
  reflexivity.
Defined.

Lemma skill_level_up_line_witness :
  timeline_event quote sample_table 12 0
    (JDict [("type", JStr "SKILL_LEVEL_UP"); ("participantId", JInt 1);
            ("skillSlot", JInt 4)])
  = Returned ["[12:00] SKILL - Player Ann(Ahri) leveled up R"] /\
  timeline_event quote sample_table 12 0
    (JDict [("type", JStr "SKILL_LEVEL_UP"); ("participantId", JInt 1)])
  = Returned ["[12:00] SKILL - Player Ann(Ahri) leveled up 0"].
Proof.
  split.
  - apply (skill_level_up_line quote sample_table 12 0
             [("type", JStr "SKILL_LEVEL_UP"); ("participantId", JInt 1);
              ("skillSlot", JInt 4)] 4 (KInt 1));
      reflexivity.
  - apply (skill_level_up_line quote sample_table 12 0
             [("type", JStr "SKILL_LEVEL_UP"); ("participantId", JInt 1)]
             0 (KInt 1));
      reflexivity.
Defined.

Lemma timeline_summary_structure_witness :
  exists rows,
    get_match_timeline_by_id quote (net_ok sample_timeline) "na" "NA1_1"
    = Returned (JStr (String.concat nl
                        ("Match: NA1_1 - Frame interval: 60s" :: rows))) /\
    length rows = 4%nat.
Proof.
  eexists.
  destruct (timeline_summary_structure quote (net_ok sample_timeline)
              "na" "https://americas.api.riotgames.com" "NA1_1" _ _ _ _ 60000
              sample_table _
              eq_refl eq_refl eq_refl eq_refl eq_refl
              ltac:(vm_compute; reflexivity) eq_refl eq_refl
              ltac:(vm_compute; reflexivity)) as (H & _ & Hlen).
  split; [exact H|exact Hlen].
Defined.
